(** * Emergency state machine of the elderly-care app (src/README.jsx)

    A shallow embedding of the parts of the React/Firestore program that
    decide how the device status moves, which events are logged, how the
    escalation countdown runs and what the viewers reconstruct from the
    store's snapshots. *)

From stdpp Require Import base gmap strings list sorting pretty.

Open Scope Z_scope.

(** ** Firestore values and documents *)

(** The nested vitals object [{ heartRate, spo2, battery }]. *)
Record Vitals := mkVitals { heartRate : Z; spo2 : Z; battery : Z }.

#[global] Instance Vitals_eq_dec : EqDecision Vitals.
Proof. solve_decision. Defined.

(** The field values the program stores.  [VServerTimestamp] is the
    sentinel returned by [serverTimestamp()]; the store replaces it by the
    commit time. *)
Inductive Value :=
| VNull
| VStr (s : string)
| VNum (n : Z)
| VTimestamp (ms : Z)
| VServerTimestamp
| VVitals (v : Vitals).

#[global] Instance Value_eq_dec : EqDecision Value.
Proof. solve_decision. Defined.

(** A document (and a JS object literal) is a finite map from field names
    to values. *)
Abbreviation Doc := (gmap string Value).

(** [docSnap.exists()] with [{ id: d.id, ...d.data() }]: the spread comes
    second, so a stored field called id wins over the document id. *)
Definition withId (id : string) (data : Doc) : Doc :=
  data ∪ {[ "id" := VStr id ]}.

(** ** The shared store *)

(** The collections the program uses, the document ids paired with the
    data.  [clock] is the time of the last commit on the server's clock,
    which every commit advances; [nextId] feeds the automatic ids.  Two
    awaited writes of one handler are taken as consecutive commits: what
    other viewers write in between is not part of this model. *)
Record Store := mkStore {
  devices : gmap string Doc;
  events : list (string * Doc);
  caregivers : list (string * Doc);
  clock : Z;
  nextId : nat
}.

(** The server resolves the sentinel when it commits a write. *)
Definition resolve (now : Z) (fields : Doc) : Doc :=
  (λ v, match v with VServerTimestamp => VTimestamp now | _ => v end) <$> fields.

(** Auto-generated document ids of [addDoc]. *)
Definition autoId (n : nat) : string := pretty n.

(** [updateDoc(doc(db, ..., 'devices', id), fields)]: merges the given
    top-level fields into an existing document and fails when there is
    none. *)
Definition updateDoc (id : string) (fields : Doc) (s : Store) : option Store :=
  match devices s !! id with
  | None => None
  | Some old =>
      let now := clock s + 1 in
      Some (mkStore (<[id := resolve now fields ∪ old]> (devices s))
                    (events s) (caregivers s) now (nextId s))
  end.

(** [addDoc(collection(db, ..., 'events'), fields)]. *)
Definition addEvent (fields : Doc) (s : Store) : Store :=
  let now := clock s + 1 in
  mkStore (devices s)
          (events s ++ [(autoId (nextId s), resolve now fields)])
          (caregivers s) now (S (nextId s)).

(** [addDoc(collection(db, ..., 'caregivers'), fields)]. *)
Definition addCaregiver (fields : Doc) (s : Store) : Store :=
  let now := clock s + 1 in
  mkStore (devices s) (events s)
          (caregivers s ++ [(autoId (nextId s), resolve now fields)])
          now (S (nextId s)).

(** [deleteDoc(doc(db, ..., 'caregivers', id))]. *)
Definition deleteCaregiver (id : string) (s : Store) : Store :=
  mkStore (devices s) (events s)
          (filter (λ d, d.1 ≠ id) (caregivers s))
          (clock s + 1) (nextId s).

(** An [await] that rejects ends its handler.  The handlers below write
    nothing before the first write that can fail, so a rejected handler
    leaves the store as it found it. *)
Definition settle (h : Store → option Store) (s : Store) : Store :=
  default s (h s).


(** ** Viewers: profile, local device copy, alert overlay *)

Inductive Role := Elderly | Caregiver.

#[global] Instance Role_eq_dec : EqDecision Role.
Proof. solve_decision. Defined.

(** The strings [profile.role] holds. *)
Definition roleName (r : Role) : string :=
  match r with Elderly => "elderly" | Caregiver => "caregiver" end.

Record Profile := mkProfile { role : Role; deviceId : string }.

Inductive Tab := Dashboard | CareTab | HistoryTab.

#[global] Instance Tab_eq_dec : EqDecision Tab.
Proof. solve_decision. Defined.

(** The state of one running [App].  [countdown] is the state of
    [AlertOverlay]: [None] while the overlay is not mounted. *)
Record Client := mkClient {
  profile : Profile;
  device : option Doc;
  currentTab : Tab;
  countdown : option Z
}.

(** [device.status === st] *)
Definition statusIs (st : string) (d : Doc) : bool :=
  bool_decide (d !! "status" = Some (VStr st)).

Definition observes (st : string) (c : Client) : bool :=
  match device c with Some d => statusIs st d | None => false end.

(** [device && (device.status === 'FALL' || ... === 'SOS' || ... === 'AMBULANCE')] *)
Definition showOverlay (c : Client) : bool :=
  observes "FALL" c || observes "SOS" c || observes "AMBULANCE" c.

(** A render of [App] after its [device] state changed: the overlay keeps
    its state while it stays mounted, starts from [useState(15)] when it is
    mounted, and loses its state when it is unmounted. *)
Definition render (c : Client) : Client :=
  mkClient (profile c) (device c) (currentTab c)
    (if showOverlay c
     then Some (default 15 (countdown c))
     else None).

(** The [onSnapshot] callback of the device subscription. *)
Definition onDeviceSnapshot (snap : option Doc) (c : Client) : Client :=
  match snap with
  | Some data =>
      render (mkClient (profile c) (Some (withId (deviceId (profile c)) data))
                       (currentTab c) (countdown c))
  | None => c
  end.

(** The store pushes its current device document to a viewer. *)
Definition pushDevice (s : Store) (c : Client) : Client :=
  onDeviceSnapshot (devices s !! deviceId (profile c)) c.

(** The effect of [AlertOverlay] has dependencies [[isFall, countdown]]: after
    every commit an interval is armed exactly when [isFall && countdown > 0]
    (the cleanup clears the one armed before). *)
Definition timerArmed (c : Client) : bool :=
  match countdown c with
  | Some n => observes "FALL" c && bool_decide (0 < n)
  | None => false
  end.

Definition setCountdown (n : Z) (c : Client) : Client :=
  mkClient (profile c) (device c) (currentTab c) (Some n).

(** ** Transition handlers *)

Definition escalateToSOS (p : Profile) (s : Store) : option Store :=
  s1 ← updateDoc (deviceId p)
         {[ "status" := VStr "SOS"; "lastUpdate" := VServerTimestamp ]} s;
  Some (addEvent {[ "deviceId" := VStr (deviceId p);
                    "type" := VStr "FALL_ESCALATED";
                    "timestamp" := VServerTimestamp;
                    "status" := VStr "ACTIVE" ]} s1).

Definition handleCancelFall (p : Profile) (s : Store) : option Store :=
  s1 ← updateDoc (deviceId p)
         {[ "status" := VStr "SAFE"; "lastUpdate" := VServerTimestamp ]} s;
  Some (addEvent {[ "deviceId" := VStr (deviceId p);
                    "type" := VStr "FALSE_ALARM";
                    "timestamp" := VServerTimestamp;
                    "status" := VStr "RESOLVED" ]} s1).

Definition handleRequestAmbulance (p : Profile) (s : Store) : option Store :=
  s1 ← updateDoc (deviceId p)
         {[ "status" := VStr "AMBULANCE"; "lastUpdate" := VServerTimestamp ]} s;
  Some (addEvent {[ "deviceId" := VStr (deviceId p);
                    "type" := VStr "AMBULANCE_REQUESTED";
                    "timestamp" := VServerTimestamp;
                    "status" := VStr "DISPATCHED";
                    "requestedBy" := VStr (roleName (role p)) ]} s1).

Definition handleResolveEmergency (p : Profile) (s : Store) : option Store :=
  s1 ← updateDoc (deviceId p)
         {[ "status" := VStr "SAFE"; "lastUpdate" := VServerTimestamp ]} s;
  Some (addEvent {[ "deviceId" := VStr (deviceId p);
                    "type" := VStr "EMERGENCY_RESOLVED";
                    "timestamp" := VServerTimestamp;
                    "resolvedBy" := VStr (roleName (role p)) ]} s1).

(** The [onClick] of the SOS button of [DashboardScreen]. *)
Definition manualSOS (p : Profile) (s : Store) : option Store :=
  s1 ← updateDoc (deviceId p)
         {[ "status" := VStr "SOS"; "lastUpdate" := VServerTimestamp ]} s;
  Some (addEvent {[ "deviceId" := VStr (deviceId p);
                    "type" := VStr "MANUAL_SOS";
                    "timestamp" := VServerTimestamp;
                    "status" := VStr "ACTIVE" ]} s1).

(** One firing of the interval: the updater passed to [setCountdown]. *)
Definition tick (c : Client) (s : Store) : Client * Store :=
  if timerArmed c then
    match countdown c with
    | Some prev =>
        if bool_decide (prev ≤ 1)
        then (setCountdown 0 c, settle (escalateToSOS (profile c)) s)
        else (setCountdown (prev - 1) c, s)
    | None => (c, s)
    end
  else (c, s).

(** ** Controls and their render conditions *)

Inductive Control := BtnSOS | BtnCancel | BtnAmbulance | BtnResolve.

#[global] Instance Control_eq_dec : EqDecision Control.
Proof. solve_decision. Defined.

(** Whether the JSX renders the control.  The SOS button belongs to
    [DashboardScreen] (dashboard tab, a device loaded, wearer only); the
    other three belong to [AlertOverlay], itself rendered under
    [showOverlay].  The overlay is drawn above the dashboard but does not
    unmount it. *)
Definition rendered (b : Control) (c : Client) : bool :=
  match b with
  | BtnSOS =>
      bool_decide (currentTab c = Dashboard) && bool_decide (is_Some (device c))
      && bool_decide (role (profile c) = Elderly)
  | BtnCancel =>
      showOverlay c && observes "FALL" c
      && bool_decide (role (profile c) = Elderly)
  | BtnAmbulance =>
      showOverlay c && (observes "FALL" c || observes "SOS" c)
      && bool_decide (role (profile c) = Caregiver)
  | BtnResolve =>
      showOverlay c && (observes "SOS" c || observes "AMBULANCE" c)
  end.

Definition onClick (b : Control) (p : Profile) : Store → option Store :=
  match b with
  | BtnSOS => manualSOS p
  | BtnCancel => handleCancelFall p
  | BtnAmbulance => handleRequestAmbulance p
  | BtnResolve => handleResolveEmergency p
  end.

(** A press of a control: nothing happens when it is not on screen. *)
Definition click (b : Control) (c : Client) (s : Store) : Store :=
  if rendered b c then settle (onClick b (profile c)) s else s.

(** What a viewer can do to the store. *)
Inductive ClientEvent := Click (b : Control) | Tick.

Definition clientStep (ev : ClientEvent) (c : Client) (s : Store) : Client * Store :=
  match ev with
  | Click b => (c, click b c s)
  | Tick => tick c s
  end.

Fixpoint ticks (n : nat) (c : Client) (s : Store) : Client * Store :=
  match n with
  | O => (c, s)
  | S n' => let '(c', s') := tick c s in ticks n' c' s'
  end.

(** ** The hardware simulator panel *)

Record Simulator := mkSim { vitals : Vitals; autoUpdate : bool }.

(** JavaScript truthiness of the values a status field can hold. *)
Definition truthy (v : Value) : bool :=
  match v with
  | VNull => false
  | VStr s => negb (bool_decide (s = EmptyString))
  | VNum n => negb (bool_decide (n = 0))
  | _ => true
  end.

(** [a || b] where [a] may be undefined. *)
Definition jsOr (a : option Value) (b : Value) : Value :=
  match a with
  | Some v => if truthy v then v else b
  | None => b
  end.

(** [syncToFirebase(forcedStatus)]; [did] and [cur] are the props [deviceId]
    and [currentDeviceState].  The [try/catch] swallows a failed write. *)
Definition syncToFirebase (did : string) (cur : option Doc) (sim : Simulator)
    (forcedStatus : option string) (s : Store) : Store :=
  settle (updateDoc did
    {[ "vitals" := VVitals (vitals sim);
       "status" := jsOr (VStr <$> forcedStatus)
                        (jsOr (cur ≫= (λ d : Doc, d !! "status")) (VStr "SAFE"));
       "lastUpdate" := VServerTimestamp ]}) s.

(** The effect with dependency [[vitals]]. *)
Definition vitalsEffect (did : string) (cur : option Doc) (sim : Simulator)
    (s : Store) : Store :=
  if autoUpdate sim then syncToFirebase did cur sim (Some "SAFE"%string) s else s.

(** The 3-second interval of the auto-fluctuate mode followed by the effect
    its [setVitals] triggers.  [r5] and [r3] stand for
    [Math.floor(Math.random() * 5)] and [Math.floor(Math.random() * 3)]. *)
Definition fluctuate (r5 r3 : Z) (v : Vitals) : Vitals :=
  mkVitals (60 `max` (120 `min` (heartRate v + (r5 - 2))))
           (90 `max` (100 `min` (spo2 v + (r3 - 1))))
           (battery v).

Definition onInterval (r5 r3 : Z) (did : string) (cur : option Doc)
    (sim : Simulator) (s : Store) : Simulator * Store :=
  if autoUpdate sim then
    let sim' := mkSim (fluctuate r5 r3 (vitals sim)) (autoUpdate sim) in
    (sim', vitalsEffect did cur sim' s)
  else (sim, s).

Definition triggerFall (did : string) (sim : Simulator) (s : Store)
    : Simulator * Store :=
  let fallVitals := mkVitals 110 (spo2 (vitals sim)) (battery (vitals sim)) in
  (mkSim fallVitals false,
   settle (updateDoc did {[ "vitals" := VVitals fallVitals;
                            "status" := VStr "FALL";
                            "lastUpdate" := VServerTimestamp ]}) s).

Definition triggerSOS (did : string) (sim : Simulator) (s : Store)
    : Simulator * Store :=
  (mkSim (vitals sim) false,
   settle (updateDoc did {[ "status" := VStr "SOS";
                            "lastUpdate" := VServerTimestamp ]}) s).

(** [resetDevice] issues its own write, and the [setVitals] it does makes the
    vitals effect run in the next commit, now with [autoUpdate] on. *)
Definition resetDevice (did : string) (cur : option Doc) (sim : Simulator)
    (s : Store) : Simulator * Store :=
  let sim' := mkSim (mkVitals 72 99 (battery (vitals sim))) true in
  (sim',
   vitalsEffect did cur sim'
     (settle (updateDoc did {[ "status" := VStr "SAFE";
                               "lastUpdate" := VServerTimestamp ]}) s)).

(** ** Reading the collections *)

(** [Array.prototype.sort(cmp)]: a stable sort; an element goes in front of
    the first one it does not compare greater than. *)
Section Sort.
Context {A : Type} (cmp : A → A → Z).

Fixpoint insertBy (x : A) (l : list A) : list A :=
  match l with
  | [] => [x]
  | y :: l' => if bool_decide (cmp x y ≤ 0) then x :: y :: l'
               else y :: insertBy x l'
  end.

Definition sortBy (l : list A) : list A := foldr insertBy [] l.
End Sort.

(** [snapshot.docs.map(d => ({ id: d.id, ...d.data() }))] *)
Definition docsOf (snapshot : list (string * Doc)) : list Doc :=
  (λ d, withId d.1 d.2) <$> snapshot.

(** [e.deviceId === deviceId] *)
Definition ofDevice (did : string) (e : Doc) : bool :=
  bool_decide (e !! "deviceId" = Some (VStr did)).

(** [e.timestamp?.toMillis?.() || 0] *)
Definition millis (e : Doc) : Z :=
  match e !! "timestamp" with
  | Some (VTimestamp ms) => ms
  | _ => 0
  end.

(** The events subscription of [App]. *)
Definition myEvents (did : string) (snapshot : list (string * Doc)) : list Doc :=
  sortBy (λ a b, millis b - millis a) (filter (λ e, ofDevice did e) (docsOf snapshot)).

(** The priority of a caregiver document when it is a number, which is all
    [handleAdd] writes. *)
Definition priority (c : Doc) : option Z :=
  match c !! "priority" with
  | Some (VNum n) => Some n
  | _ => None
  end.

(** [a.priority - b.priority] for numeric priorities.  With a missing
    priority the difference is NaN, which [sort] takes as 0; that is also
    what this definition gives for the other non-numeric values, whose
    JavaScript coercion (null to 0, numeric strings to numbers) is not
    modelled: the properties below are about numeric priorities. *)
Definition cmpPriority (a b : Doc) : Z :=
  match priority a, priority b with
  | Some x, Some y => x - y
  | _, _ => 0
  end.

(** The caregivers subscription of [App]. *)
Definition myCaregivers (did : string) (snapshot : list (string * Doc)) : list Doc :=
  sortBy cmpPriority (filter (λ e, ofDevice did e) (docsOf snapshot)).

(** ** The care team screen *)

(** [handleAdd] with the form state [newCG = { name, phone }]; [cgs] is the
    [caregivers] prop. *)
Definition handleAdd (did : string) (cgs : list Doc) (name phone : string)
    (s : Store) : Store :=
  if bool_decide (name = EmptyString) || bool_decide (phone = EmptyString) then s
  else addCaregiver {[ "deviceId" := VStr did;
                       "name" := VStr name;
                       "phone" := VStr phone;
                       "priority" := VNum (Z.of_nat (length cgs) + 1) ]} s.

Definition handleRemove (id : string) (s : Store) : Store :=
  deleteCaregiver id s.

(** Roster operations of a wearer whose list is up to date with the store. *)
Inductive RosterOp := AddCaregiver (name phone : string) | RemoveCaregiver (id : string).

Definition rosterStep (did : string) (s : Store) (op : RosterOp) : Store :=
  match op with
  | AddCaregiver name phone =>
      handleAdd did (myCaregivers did (caregivers s)) name phone s
  | RemoveCaregiver id => handleRemove id s
  end.

Definition rosterRun (did : string) (ops : list RosterOp) (s : Store) : Store :=
  foldl (rosterStep did) s ops.

(** ** The transition table of the specification (section 4.1) *)

Inductive Action := ManualSOS | Escalate | CancelFall | RequestAmbulance | ResolveEmergency.

#[global] Instance Action_eq_dec : EqDecision Action.
Proof. solve_decision. Defined.

(** The program's code for each action. *)
Definition handlerOf (a : Action) (p : Profile) : Store → option Store :=
  match a with
  | ManualSOS => manualSOS p
  | Escalate => escalateToSOS p
  | CancelFall => handleCancelFall p
  | RequestAmbulance => handleRequestAmbulance p
  | ResolveEmergency => handleResolveEmergency p
  end.

(** Which action a viewer's event requests. *)
Definition actionOf (ev : ClientEvent) : Action :=
  match ev with
  | Click BtnSOS => ManualSOS
  | Click BtnCancel => CancelFall
  | Click BtnAmbulance => RequestAmbulance
  | Click BtnResolve => ResolveEmergency
  | Tick => Escalate
  end.

(** Column "To" of the table. *)
Definition tableTarget (a : Action) : string :=
  match a with
  | ManualSOS => "SOS"
  | Escalate => "SOS"
  | CancelFall => "SAFE"
  | RequestAmbulance => "AMBULANCE"
  | ResolveEmergency => "SAFE"
  end.

(** Column "Event type" of the table. *)
Definition tableEvent (a : Action) : string :=
  match a with
  | ManualSOS => "MANUAL_SOS"
  | Escalate => "FALL_ESCALATED"
  | CancelFall => "FALSE_ALARM"
  | RequestAmbulance => "AMBULANCE_REQUESTED"
  | ResolveEmergency => "EMERGENCY_RESOLVED"
  end.

(** Columns "From" and "Actor" of the table: the guard of an action. *)
Definition tablePermits (a : Action) (r : Role) (st : string) : bool :=
  match a with
  | ManualSOS => bool_decide (r = Elderly) && bool_decide (st = "SAFE"%string)
  | Escalate => bool_decide (st = "FALL"%string)
  | CancelFall => bool_decide (r = Elderly) && bool_decide (st = "FALL"%string)
  | RequestAmbulance =>
      bool_decide (r = Caregiver)
      && (bool_decide (st = "FALL"%string) || bool_decide (st = "SOS"%string))
  | ResolveEmergency =>
      bool_decide (st = "SOS"%string) || bool_decide (st = "AMBULANCE"%string)
  end.

(** The guard evaluated on what a viewer observes: its role and the status
    string of its local copy of the device. *)
Definition permittedOnView (a : Action) (c : Client) : bool :=
  match device c ≫= (λ d : Doc, d !! "status") with
  | Some (VStr st) => tablePermits a (role (profile c)) st
  | _ => false
  end.

(** ** Sample states *)

Definition sampleId : string := "ESP32-A1B2C3".

(** The device document [handlePairDevice] creates, with a given status. *)
Definition sampleDevice (st : string) : Doc :=
  {[ "status" := VStr st;
     "vitals" := VVitals (mkVitals 75 98 100);
     "lastUpdate" := VTimestamp 0;
     "pairedElderly" := VNull ]}.

Definition sampleStore (st : string) : Store :=
  mkStore {[ sampleId := sampleDevice st ]} [] [] 0 0.

(** A viewer that has just subscribed to the store. *)
Definition viewer (r : Role) (s : Store) : Client :=
  pushDevice s (mkClient (mkProfile r sampleId) None Dashboard None).

Definition sampleSim : Simulator := mkSim (mkVitals 75 98 82) false.

(** The status and the last update of the sample device in a store. *)
Definition statusOf (did : string) (s : Store) : option Value :=
  devices s !! did ≫= (λ d : Doc, d !! "status").

Definition lastUpdateOf (did : string) (s : Store) : option Value :=
  devices s !! did ≫= (λ d : Doc, d !! "lastUpdate").

(** ** Events of the simulator panel and inputs of a viewer *)

Inductive SimEvent :=
| SimInterval (r5 r3 : Z)
| SimSetHeartRate (v : Z)
| SimSetSpo2 (v : Z)
| SimToggleAuto
| SimFall
| SimSOS
| SimReset.

Definition simStep (ev : SimEvent) (did : string) (cur : option Doc)
    (sim : Simulator) (s : Store) : Simulator * Store :=
  match ev with
  | SimInterval r5 r3 => onInterval r5 r3 did cur sim s
  | SimSetHeartRate v =>
      let sim' := mkSim (mkVitals v (spo2 (vitals sim)) (battery (vitals sim)))
                        (autoUpdate sim) in
      (sim', vitalsEffect did cur sim' s)
  | SimSetSpo2 v =>
      let sim' := mkSim (mkVitals (heartRate (vitals sim)) v (battery (vitals sim)))
                        (autoUpdate sim) in
      (sim', vitalsEffect did cur sim' s)
  | SimToggleAuto => (mkSim (vitals sim) (negb (autoUpdate sim)), s)
  | SimFall => triggerFall did sim s
  | SimSOS => triggerSOS did sim s
  | SimReset => resetDevice did cur sim s
  end.

(** What reaches a viewer's alert overlay: interval firings and pushed
    device documents. *)
Inductive ClientInput := InTick | InPush (d : Doc).

Definition clientInput (cs : Client * Store) (i : ClientInput) : Client * Store :=
  match i with
  | InTick => tick cs.1 cs.2
  | InPush d => (onDeviceSnapshot (Some d) cs.1, cs.2)
  end.

Definition runInputs (ins : list ClientInput) (c : Client) (s : Store)
    : Client * Store :=
  foldl clientInput (c, s) ins.

(** An input that does not show the viewer a FALL status. *)
Definition awayFromFall (i : ClientInput) : Prop :=
  match i with
  | InTick => True
  | InPush d => statusIs "FALL" d = false
  end.

(** The values of the field [type] over a list of stored events. *)
Definition typesOf (evs : list (string * Doc)) : list (option Value) :=
  (λ e : string * Doc, e.2 !! "type") <$> evs.

(** The event document that the handler of an action appends, as stored
    at commit time [t]. *)
Definition loggedEvent (a : Action) (p : Profile) (t : Z) : Doc :=
  match a with
  | ManualSOS =>
      {[ "deviceId" := VStr (deviceId p); "type" := VStr "MANUAL_SOS";
         "timestamp" := VTimestamp t; "status" := VStr "ACTIVE" ]}
  | Escalate =>
      {[ "deviceId" := VStr (deviceId p); "type" := VStr "FALL_ESCALATED";
         "timestamp" := VTimestamp t; "status" := VStr "ACTIVE" ]}
  | CancelFall =>
      {[ "deviceId" := VStr (deviceId p); "type" := VStr "FALSE_ALARM";
         "timestamp" := VTimestamp t; "status" := VStr "RESOLVED" ]}
  | RequestAmbulance =>
      {[ "deviceId" := VStr (deviceId p); "type" := VStr "AMBULANCE_REQUESTED";
         "timestamp" := VTimestamp t; "status" := VStr "DISPATCHED";
         "requestedBy" := VStr (roleName (role p)) ]}
  | ResolveEmergency =>
      {[ "deviceId" := VStr (deviceId p); "type" := VStr "EMERGENCY_RESOLVED";
         "timestamp" := VTimestamp t;
         "resolvedBy" := VStr (roleName (role p)) ]}
  end.

(** The store after the handler of an action has run on a store that holds
    the device document [d]. *)
Definition afterTransition (a : Action) (p : Profile) (d : Doc) (s : Store) : Store :=
  mkStore (<[deviceId p :=
              ({[ "status" := VStr (tableTarget a);
                  "lastUpdate" := VTimestamp (clock s + 1) ]} : Doc) ∪ d]>
             (devices s))
          (events s ++ [(autoId (nextId s), loggedEvent a p (clock s + 2))])
          (caregivers s) (clock s + 2) (S (nextId s)).

(** Whether a viewer's event reaches a handler: the control is on screen,
    or the armed interval fires with [prev <= 1]. *)
Definition issues (ev : ClientEvent) (c : Client) : bool :=
  match ev with
  | Click b => rendered b c
  | Tick => timerArmed c && bool_decide (default 0 (countdown c) ≤ 1)
  end.

(** The guard of a request fails on what the viewer observes; for manual
    SOS only the role part of the guard is considered. *)
Definition guardFails (ev : ClientEvent) (c : Client) : Prop :=
  match ev with
  | Click BtnSOS => role (profile c) = Caregiver
  | _ => permittedOnView (actionOf ev) c = false
  end.

(** The caregiver documents of one device, as the snapshot lists them. *)
Definition deviceCaregivers (did : string) (s : Store) : list Doc :=
  filter (λ e, ofDevice did e) (docsOf (caregivers s)).

(** The priorities 1 .. n. *)
Definition firstPriorities (n : nat) : list (option Z) :=
  (λ k, Some (Z.of_nat k)) <$> seq 1 n.

(** The roster operations at which the uniqueness of priorities breaks. *)
Definition rosterWithRemoval : list RosterOp :=
  [AddCaregiver "Asha" "111"; AddCaregiver "Ben" "222";
   RemoveCaregiver (autoId 0); AddCaregiver "Chen" "333"].

(** ** Runs of the program on one store *)

(** One step of any part of the program: a viewer's event, an event of a
    simulator panel, or a roster operation of the care team screen (with
    whatever caregiver list that screen holds at the time). *)
Inductive WorldStep :=
| ViewerDoes (c : Client) (ev : ClientEvent)
| PanelDoes (ev : SimEvent) (did : string) (cur : option Doc) (sim : Simulator)
| RosterAdds (did : string) (cgs : list Doc) (name phone : string)
| RosterRemoves (id : string).

Definition worldStep (s : Store) (st : WorldStep) : Store :=
  match st with
  | ViewerDoes c ev => (clientStep ev c s).2
  | PanelDoes ev did cur sim => (simStep ev did cur sim s).2
  | RosterAdds did cgs name phone => handleAdd did cgs name phone s
  | RosterRemoves id => handleRemove id s
  end.

Definition runWorld (steps : list WorldStep) (s : Store) : Store :=
  foldl worldStep s steps.

(** The four status strings the program writes. *)
Definition knownStatus (d : Doc) : Prop :=
  ∃ st, d !! "status" = Some (VStr st)
        ∧ st ∈ ["SAFE"; "FALL"; "SOS"; "AMBULANCE"]%string.

Definition statusesKnown (s : Store) : Prop :=
  ∀ id d, devices s !! id = Some d → knownStatus d.

(** The overlay's countdown is absent or between 0 and 15. *)
Definition countdownInRange (c : Client) : Prop :=
  match countdown c with
  | Some n => 0 ≤ n ≤ 15
  | None => True
  end.

(** A pushed state that keeps the alert overlay on screen. *)
Definition keepsOverlay (i : ClientInput) : Prop :=
  match i with
  | InTick => True
  | InPush d =>
      statusIs "FALL" d || statusIs "SOS" d || statusIs "AMBULANCE" d = true
  end.

(** ** The dashboard and the activity log *)

(** The "Primary Caregiver" card of [DashboardScreen]:
    [caregivers.length > 0 && profile.role === 'elderly'], then
    [caregivers[0]]. *)
Definition primaryCaregiver (r : Role) (cgs : list Doc) : option Doc :=
  if bool_decide (r = Elderly) then head cgs else None.

(** [s.includes(sub)] *)
Fixpoint includes (sub s : string) : bool :=
  String.prefix sub s
  || match s with
     | EmptyString => false
     | String _ s' => includes sub s'
     end.

Inductive Dot := RedDot | GreyDot | BlueDot.

(** [event.type.includes('FALL') || ... 'SOS' ... || ... 'AMBULANCE'] *)
Definition isEmergency (t : string) : bool :=
  includes "FALL" t || includes "SOS" t || includes "AMBULANCE" t.

(** [event.type === 'FALSE_ALARM' || event.status === 'RESOLVED'] *)
Definition isResolved (e : Doc) (t : string) : bool :=
  bool_decide (t = "FALSE_ALARM"%string)
  || bool_decide (e !! "status" = Some (VStr "RESOLVED")).

(** The dot of a row of [HistoryScreen]; a row whose [type] is not a string
    cannot be rendered. *)
Definition dotOf (e : Doc) : option Dot :=
  match e !! "type" with
  | Some (VStr t) =>
      Some (if isEmergency t && negb (isResolved e t) then RedDot
            else if isResolved e t then GreyDot else BlueDot)
  | _ => None
  end.

(** ** Registration and pairing *)

(** The store together with the users collection. *)
Record Backend := mkBackend { users : gmap string Doc; core : Store }.

Definition withClock (now : Z) (s : Store) : Store :=
  mkStore (devices s) (events s) (caregivers s) now (nextId s).

(** [setDoc(doc(db, ..., 'users', uid), fields)]: replaces the document. *)
Definition setUser (uid : string) (fields : Doc) (b : Backend) : Backend :=
  let now := clock (core b) + 1 in
  mkBackend (<[uid := resolve now fields]> (users b)) (withClock now (core b)).

(** [updateDoc(doc(db, ..., 'users', uid), fields)] *)
Definition updateUser (uid : string) (fields : Doc) (b : Backend) : option Backend :=
  match users b !! uid with
  | None => None
  | Some old =>
      let now := clock (core b) + 1 in
      Some (mkBackend (<[uid := resolve now fields ∪ old]> (users b))
                      (withClock now (core b)))
  end.

(** [setDoc(doc(db, ..., 'devices', id), fields)] *)
Definition setDevice (id : string) (fields : Doc) (s : Store) : Store :=
  let now := clock s + 1 in
  mkStore (<[id := resolve now fields]> (devices s))
          (events s) (caregivers s) now (nextId s).

Definition handleRegisterProfile (uid name : string) (r : Role) (b : Backend)
    : Backend :=
  setUser uid {[ "uid" := VStr uid;
                 "name" := VStr name;
                 "role" := VStr (roleName r);
                 "createdAt" := VServerTimestamp;
                 "deviceId" := VNull ]} b.

(** [handlePairDevice(deviceId)] for the signed-in user [uid] whose profile
    has role [r].  The flag tells whether the [catch] ran ("Failed to pair
    device"); what was written before the failing write stays written. *)
Definition handlePairDevice (uid : string) (r : Role) (did : string)
    (b : Backend) : Backend * bool :=
  let paired :=
    match devices (core b) !! did with
    | None =>
        Some (setDevice did
                {[ "status" := VStr "SAFE";
                   "vitals" := VVitals (mkVitals 75 98 100);
                   "lastUpdate" := VServerTimestamp;
                   "pairedElderly" :=
                     if bool_decide (r = Elderly) then VStr uid else VNull ]}
                (core b))
    | Some _ =>
        if bool_decide (r = Elderly)
        then updateDoc did {[ "pairedElderly" := VStr uid ]} (core b)
        else Some (core b)
    end in
  match paired with
  | None => (b, true)
  | Some s1 =>
      match updateUser uid {[ "deviceId" := VStr did ]} (mkBackend (users b) s1) with
      | Some b' => (b', false)
      | None => (mkBackend (users b) s1, true)
      end
  end.

(** The three branches of the content area of [App]. *)
Inductive Screen := OnboardingShown | PairingShown | MainShown.

(** The branch the content area takes for the profile the subscription
    delivered: [!profile], then [!profile.deviceId].  This is the ternary
    alone: the alert overlay is rendered beside it from the [device] state
    (see [showOverlay]) and reads [profile.role], so it needs a profile. *)
Definition screenOf (profile : option Doc) : Screen :=
  match profile with
  | None => OnboardingShown
  | Some p =>
      match p !! "deviceId" with
      | Some v => if truthy v then MainShown else PairingShown
      | None => PairingShown
      end
  end.

(** The device document the third effect of [App] subscribes to. *)
Definition subscribedDevice (uid : string) (b : Backend) : option Doc :=
  match users b !! uid ≫= (λ p : Doc, p !! "deviceId") with
  | Some (VStr did) =>
      if bool_decide (did = EmptyString) then None
      else withId did <$> devices (core b) !! did
  | _ => None
  end.

(** * Properties *)

(** Closed facts about the sample states are settled by evaluation, one
    conjunct at a time. *)
Ltac evaluate :=
  intros;
  repeat lazymatch goal with |- _ ∧ _ => split end;
  vm_compute; first [reflexivity | discriminate].

(** ** The store *)

Lemma updateDoc_found did fields s d :
  devices s !! did = Some d →
  updateDoc did fields s =
    Some (mkStore (<[did := resolve (clock s + 1) fields ∪ d]> (devices s))
                  (events s) (caregivers s) (clock s + 1) (nextId s)).
Proof. intros H. unfold updateDoc. by rewrite H. Qed.

Lemma updateDoc_missing did fields s :
  devices s !! did = None → updateDoc did fields s = None.
Proof. intros H. unfold updateDoc. by rewrite H. Qed.

Lemma updateDoc_events did fields s s' :
  updateDoc did fields s = Some s' → events s' = events s.
Proof.
  unfold updateDoc. destruct (devices s !! did); [|done].
  by intros [= <-].
Qed.

Lemma settle_updateDoc_events did fields s :
  events (settle (updateDoc did fields) s) = events s.
Proof.
  unfold settle. destruct (updateDoc did fields s) eqn:E; [|done].
  simpl. by eapply updateDoc_events.
Qed.

Lemma statusOf_insert did (d : Doc) devs ev cg t n :
  statusOf did (mkStore (<[did := d]> devs) ev cg t n) = d !! "status".
Proof. unfold statusOf. simpl. by rewrite lookup_insert_eq. Qed.

Lemma lastUpdateOf_insert did (d : Doc) devs ev cg t n :
  lastUpdateOf did (mkStore (<[did := d]> devs) ev cg t n) = d !! "lastUpdate".
Proof. unfold lastUpdateOf. simpl. by rewrite lookup_insert_eq. Qed.

(** The [id] added to a snapshot does not touch the status. *)
Lemma withId_status id (d : Doc) : withId id d !! "status" = d !! "status".
Proof.
  unfold withId. destruct (d !! "status") as [v|] eqn:E.
  - by apply lookup_union_Some_l.
  - rewrite lookup_union_r by done. done.
Qed.

Lemma statusIs_withId st id (d : Doc) : statusIs st (withId id d) = statusIs st d.
Proof. unfold statusIs. by rewrite withId_status. Qed.

Lemma handlerOf_found a p s d :
  devices s !! deviceId p = Some d →
  handlerOf a p s = Some (afterTransition a p d s).
Proof.
  intros H.
  destruct a; simpl;
    unfold manualSOS, escalateToSOS, handleCancelFall, handleRequestAmbulance,
      handleResolveEmergency;
    rewrite (updateDoc_found _ _ _ _ H); simpl; unfold addEvent, afterTransition;
    simpl; replace (clock s + 1 + 1) with (clock s + 2) by lia; reflexivity.
Qed.

Lemma handlerOf_missing a p s :
  devices s !! deviceId p = None → handlerOf a p s = None.
Proof.
  intros H.
  destruct a; simpl;
    unfold manualSOS, escalateToSOS, handleCancelFall, handleRequestAmbulance,
      handleResolveEmergency;
    by rewrite (updateDoc_missing _ _ _ H).
Qed.

Lemma afterTransition_status a p d s :
  statusOf (deviceId p) (afterTransition a p d s) = Some (VStr (tableTarget a)).
Proof.
  unfold afterTransition. rewrite statusOf_insert.
  by apply lookup_union_Some_l.
Qed.

Lemma afterTransition_lastUpdate a p d s :
  lastUpdateOf (deviceId p) (afterTransition a p d s)
  = Some (VTimestamp (clock s + 1)).
Proof.
  unfold afterTransition. rewrite lastUpdateOf_insert.
  by apply lookup_union_Some_l.
Qed.

Lemma loggedEvent_type a p t :
  loggedEvent a p t !! "type" = Some (VStr (tableEvent a)).
Proof. by destruct a. Qed.

Lemma loggedEvent_deviceId a p t :
  loggedEvent a p t !! "deviceId" = Some (VStr (deviceId p)).
Proof. by destruct a. Qed.

Lemma loggedEvent_timestamp a p t :
  loggedEvent a p t !! "timestamp" = Some (VTimestamp t).
Proof. by destruct a. Qed.

(** ** Viewer steps *)

Lemma onClick_handlerOf b p : onClick b p = handlerOf (actionOf (Click b)) p.
Proof. by destruct b. Qed.

Lemma settle_handler_found a p s d :
  devices s !! deviceId p = Some d →
  settle (handlerOf a p) s = afterTransition a p d s.
Proof. intros H. unfold settle. by rewrite (handlerOf_found _ _ _ _ H). Qed.

Lemma settle_handler_missing a p s :
  devices s !! deviceId p = None → settle (handlerOf a p) s = s.
Proof. intros H. unfold settle. by rewrite (handlerOf_missing _ _ _ H). Qed.

(** A step of a viewer runs the handler of its action once when the event
    reaches it, and leaves the store alone otherwise. *)
Lemma clientStep_store ev c s :
  (clientStep ev c s).2
  = if issues ev c then settle (handlerOf (actionOf ev) (profile c)) s else s.
Proof.
  destruct ev as [b|].
  - unfold clientStep, click, issues. by rewrite onClick_handlerOf.
  - unfold clientStep, tick, issues.
    destruct (timerArmed c) eqn:T; [|done].
    unfold timerArmed in T. destruct (countdown c) as [prev|]; [|done].
    simpl. by destruct (bool_decide (prev ≤ 1)).
Qed.

(** A step of a viewer writes nothing, or moves the device to the target
    status of its action and appends that action's event. *)
Lemma clientStep_transition ev c s :
  (clientStep ev c s).2 = s
  ∨ ∃ d, issues ev c = true
         ∧ devices s !! deviceId (profile c) = Some d
         ∧ (clientStep ev c s).2 = afterTransition (actionOf ev) (profile c) d s.
Proof.
  rewrite clientStep_store. destruct (issues ev c); [|by left].
  destruct (devices s !! deviceId (profile c)) as [d|] eqn:E.
  - right. exists d. by rewrite (settle_handler_found _ _ _ d).
  - left. by rewrite settle_handler_missing.
Qed.

Lemma simStep_events ev did cur sim s :
  events (simStep ev did cur sim s).2 = events s.
Proof.
  destruct ev; simpl;
    unfold onInterval, triggerFall, triggerSOS, resetDevice, vitalsEffect,
      syncToFirebase; simpl;
    repeat match goal with
           | |- context [if ?b then _ else _] => destruct b; simpl
           end;
    rewrite ?settle_updateDoc_events; done.
Qed.

(** C3 (as amended): every step of a viewer (a press of a control or a
    firing of the countdown) either writes nothing or sets the device status
    to the target of its action and appends exactly one event, whose type is
    the one the transition table gives for that action; the writes of the
    hardware simulator (fall, hardware SOS, reset, vitals sync) append no
    event at all. *)
Theorem viewer_transition_logged_once :
  (∀ ev c s,
     let did := deviceId (profile c) in
     let s' := (clientStep ev c s).2 in
     s' = s
     ∨ ∃ id e,
         statusOf did s' = Some (VStr (tableTarget (actionOf ev)))
         ∧ events s' = events s ++ [(id, e)]
         ∧ e !! "type" = Some (VStr (tableEvent (actionOf ev)))
         ∧ e !! "deviceId" = Some (VStr did))
  ∧ (∀ ev did cur sim s, events (simStep ev did cur sim s).2 = events s).
Proof.
  split; [|apply simStep_events].
  intros ev c s did s'.
  destruct (clientStep_transition ev c s) as [H|(d & _ & Hd & H)]; [by left|].
  right. subst s'. rewrite H.
  exists (autoId (nextId s)),
         (loggedEvent (actionOf ev) (profile c) (clock s + 2)).
  split; [apply afterTransition_status|].
  split; [done|].
  split; [apply loggedEvent_type | apply loggedEvent_deviceId].
Qed.

(** C3 (as stated) fails: the simulator's "Reset to SAFE" takes the device
    from SOS to SAFE and no event is appended. *)
Lemma reset_from_sos_unlogged :
  let s := sampleStore "SOS" in
  let s' := (resetDevice sampleId (devices s !! sampleId) sampleSim s).2 in
  statusOf sampleId s = Some (VStr "SOS")
  ∧ statusOf sampleId s' = Some (VStr "SAFE")
  ∧ events s' = events s.
Proof. evaluate. Qed.

(** The render conditions and the timer condition, opened up to the status
    field of the viewer's device copy. *)
Ltac open_view :=
  unfold permittedOnView, timerArmed, showOverlay, observes, statusIs in *;
  simpl in *;
  repeat match goal with
         | H : context [device ?c] |- _ => destruct (device c) as [?d|]; simpl in *
         | |- context [device ?c] => destruct (device c) as [?d|]; simpl in *
         end;
  repeat match goal with
         | H : context [?d !! "status"] |- _ =>
             destruct (d !! "status") as [[]|]; simpl in *
         | |- context [?d !! "status"] =>
             destruct (d !! "status") as [[]|]; simpl in *
         end;
  repeat case_bool_decide; simplify_eq; simpl in *; try done.

(** An event whose guard fails does not reach a handler. *)
Lemma guardFails_not_issued ev c : guardFails ev c → issues ev c = false.
Proof.
  destruct ev as [[]|]; simpl; intros H.
  - rewrite H. simpl. by rewrite andb_false_r.
  - destruct (role (profile c)) eqn:R; open_view.
  - destruct (role (profile c)) eqn:R; open_view.
  - open_view.
  - unfold timerArmed. destruct (countdown c); open_view.
Qed.

(** While the viewer does not observe FALL no interval is armed. *)
Lemma guardFails_timer c : guardFails Tick c → timerArmed c = false.
Proof.
  simpl. intros H. unfold timerArmed. destruct (countdown c); open_view.
Qed.

(** C2 (as amended): a request whose guard fails on what the viewer
    observes (its role and the status of its local device copy) is not
    offered by the interface: cancel-fall, request-ambulance, resolve and
    the countdown escalation then write nothing and append nothing, and the
    viewer is left as it was; manual SOS is not offered to a caregiver. *)
Theorem guard_failure_no_write ev c s :
  guardFails ev c → clientStep ev c s = (c, s).
Proof.
  intros H. destruct ev as [b|]; simpl.
  - apply guardFails_not_issued in H. unfold issues in H.
    unfold click. by rewrite H.
  - unfold tick. by rewrite (guardFails_timer _ H).
Qed.

Lemma guard_failure_no_write_witness :
  let s := sampleStore "FALL" in
  let c := viewer Caregiver s in
  guardFails (Click BtnCancel) c ∧ clientStep (Click BtnCancel) c s = (c, s).
Proof.
  split; [reflexivity|].
  apply guard_failure_no_write. reflexivity.
Defined.

(** C2 (as stated) fails: the wearer presses the SOS button of the dashboard
    while the device is in AMBULANCE, a state from which the table allows
    no manual SOS; the status is overwritten and an event is appended. *)
Lemma manual_sos_from_ambulance_writes :
  let s := sampleStore "AMBULANCE" in
  let c := viewer Elderly s in
  let s' := (clientStep (Click BtnSOS) c s).2 in
  observes "AMBULANCE" c = true
  ∧ tablePermits ManualSOS Elderly "AMBULANCE" = false
  ∧ statusOf sampleId s' = Some (VStr "SOS")
  ∧ typesOf (events s') = [Some (VStr "MANUAL_SOS")]
  ∧ s' ≠ s.
Proof. evaluate. Qed.

(** ** Cancelling a fall *)

(** C5 (as amended): a cancel-fall attempt by a caregiver changes nothing in
    the store, whatever the device state; the cancel control acts only for
    the wearer role and only while the status that viewer observes, on its
    local copy of the device, is exactly FALL. *)
Theorem cancel_fall_wearer_only c s :
  role (profile c) = Caregiver ∨ observes "FALL" c = false →
  click BtnCancel c s = s.
Proof.
  intros H. unfold click.
  destruct (rendered BtnCancel c) eqn:R; [|done]. exfalso.
  simpl in R. destruct H as [H|H].
  - rewrite H in R. simpl in R. by rewrite andb_false_r in R.
  - rewrite H in R. by rewrite andb_false_r in R.
Qed.

Lemma cancel_fall_wearer_only_witness :
  let s := sampleStore "FALL" in
  let c := viewer Caregiver s in
  (role (profile c) = Caregiver ∨ observes "FALL" c = false)
  ∧ click BtnCancel c s = s.
Proof.
  split; [by left|].
  apply cancel_fall_wearer_only. by left.
Defined.

(** C5 (as stated) fails on "only while status is exactly FALL": the handler
    does not look at the store.  The device has moved on to SOS, the wearer's
    copy still says FALL, and the wearer's cancel goes through: the device
    becomes SAFE and a FALSE_ALARM event is logged. *)
Lemma stale_cancel_overwrites_sos :
  let s := sampleStore "SOS" in
  let c := viewer Elderly (sampleStore "FALL") in
  let s' := click BtnCancel c s in
  statusOf sampleId s = Some (VStr "SOS")
  ∧ observes "FALL" c = true
  ∧ statusOf sampleId s' = Some (VStr "SAFE")
  ∧ typesOf (events s') = [Some (VStr "FALSE_ALARM")].
Proof. evaluate. Qed.

(** The wearer who observes FALL does cancel: the device becomes SAFE and a
    FALSE_ALARM event with status RESOLVED is appended (scenario 1). *)
Lemma wearer_cancels c s d :
  role (profile c) = Elderly →
  observes "FALL" c = true →
  devices s !! deviceId (profile c) = Some d →
  click BtnCancel c s = afterTransition CancelFall (profile c) d s.
Proof.
  intros Hr Hf Hd. unfold click, rendered, showOverlay.
  rewrite Hf, Hr. simpl.
  by apply (settle_handler_found CancelFall).
Qed.

(** C4 (as amended): a step of a viewer that takes the device from FALL to
    SAFE appends exactly one event, of type FALSE_ALARM or
    EMERGENCY_RESOLVED, stamped no earlier than the [lastUpdate] the step
    wrote; for a viewer that observes FALL the step is the wearer's cancel
    and the event is FALSE_ALARM. *)
Theorem fall_to_safe_by_viewer ev c s :
  let did := deviceId (profile c) in
  let s' := (clientStep ev c s).2 in
  statusOf did s = Some (VStr "FALL") →
  statusOf did s' = Some (VStr "SAFE") →
  ∃ id e t u,
    events s' = events s ++ [(id, e)]
    ∧ (e !! "type" = Some (VStr "FALSE_ALARM")
       ∨ e !! "type" = Some (VStr "EMERGENCY_RESOLVED"))
    ∧ e !! "timestamp" = Some (VTimestamp t)
    ∧ lastUpdateOf did s' = Some (VTimestamp u)
    ∧ u ≤ t
    ∧ (observes "FALL" c = true →
       ev = Click BtnCancel ∧ role (profile c) = Elderly
       ∧ e !! "type" = Some (VStr "FALSE_ALARM")).
Proof.
  intros did s' Hfall Hsafe. subst s'.
  destruct (clientStep_transition ev c s) as [H|(d & Hiss & Hd & H)].
  { rewrite H, Hfall in Hsafe. discriminate. }
  rewrite H in *. subst did.
  rewrite afterTransition_status in Hsafe.
  exists (autoId (nextId s)),
         (loggedEvent (actionOf ev) (profile c) (clock s + 2)),
         (clock s + 2), (clock s + 1).
  split; [done|].
  split.
  { rewrite loggedEvent_type.
    destruct ev as [[]|]; simpl in *; try discriminate; eauto. }
  split; [apply loggedEvent_timestamp|].
  split; [apply afterTransition_lastUpdate|].
  split; [lia|].
  intros Hobs.
  destruct ev as [[]|]; simpl in Hsafe; try discriminate.
  - split; [done|]. split; [|done].
    simpl in Hiss. destruct (role (profile c)); [done|].
    by rewrite andb_false_r in Hiss.
  - exfalso. simpl in Hiss. clear -Hiss Hobs. open_view.
Qed.

Lemma fall_to_safe_by_viewer_witness :
  let s := sampleStore "FALL" in
  let c := viewer Elderly s in
  let s' := (clientStep (Click BtnCancel) c s).2 in
  statusOf sampleId s = Some (VStr "FALL")
  ∧ statusOf sampleId s' = Some (VStr "SAFE")
  ∧ ∃ id e t u,
    events s' = events s ++ [(id, e)]
    ∧ (e !! "type" = Some (VStr "FALSE_ALARM")
       ∨ e !! "type" = Some (VStr "EMERGENCY_RESOLVED"))
    ∧ e !! "timestamp" = Some (VTimestamp t)
    ∧ lastUpdateOf sampleId s' = Some (VTimestamp u)
    ∧ u ≤ t
    ∧ (observes "FALL" c = true →
       Click BtnCancel = Click BtnCancel ∧ role (profile c) = Elderly
       ∧ e !! "type" = Some (VStr "FALSE_ALARM")).
Proof.
  split; [reflexivity|]. split; [reflexivity|].
  apply (fall_to_safe_by_viewer (Click BtnCancel)
           (viewer Elderly (sampleStore "FALL")) (sampleStore "FALL"));
    reflexivity.
Defined.

(** C4 (as stated) fails: the simulator's "Reset to SAFE" takes the device
    from FALL to SAFE with no wearer cancel and no event of any type. *)
Lemma reset_from_fall_without_event :
  let s := sampleStore "FALL" in
  let s' := (resetDevice sampleId (devices s !! sampleId) sampleSim s).2 in
  statusOf sampleId s = Some (VStr "FALL")
  ∧ statusOf sampleId s' = Some (VStr "SAFE")
  ∧ ¬ ∃ e, e ∈ events s'
           ∧ (e.2 !! "type" = Some (VStr "FALSE_ALARM")
              ∨ e.2 !! "type" = Some (VStr "EMERGENCY_RESOLVED")).
Proof.
  intros s s'.
  assert (E : events s' = []) by evaluate.
  split; [evaluate|]. split; [evaluate|].
  intros (e & He & _). rewrite E in He. by apply elem_of_nil in He.
Qed.

(** ** Ambulance request and resolution *)

Lemma profile_pushDevice s c : profile (pushDevice s c) = profile c.
Proof.
  unfold pushDevice, onDeviceSnapshot.
  by destruct (devices s !! deviceId (profile c)).
Qed.

Lemma observes_pushDevice st s c d :
  devices s !! deviceId (profile c) = Some d →
  observes st (pushDevice s c) = statusIs st d.
Proof.
  intros H. unfold pushDevice, onDeviceSnapshot. rewrite H.
  unfold observes. simpl. apply statusIs_withId.
Qed.

Lemma statusIs_true st (d : Doc) :
  d !! "status" = Some (VStr st) → statusIs st d = true.
Proof. intros H. unfold statusIs. by rewrite bool_decide_eq_true. Qed.

Lemma afterTransition_device a p d s :
  devices (afterTransition a p d s) !! deviceId p
  = Some (({[ "status" := VStr (tableTarget a);
              "lastUpdate" := VTimestamp (clock s + 1) ]} : Doc) ∪ d).
Proof. unfold afterTransition. simpl. by rewrite lookup_insert_eq. Qed.

(** C7 (as amended): with the device in SOS (or FALL), the ambulance
    request of a caregiver who has received that state makes the status
    AMBULANCE and appends the event with type AMBULANCE_REQUESTED, status
    DISPATCHED and the field requestedBy set to caregiver; once the wearer
    has received the new state, the wearer's resolve makes the status SAFE
    and appends the event with type EMERGENCY_RESOLVED and resolvedBy set to
    elderly. *)
Theorem ambulance_then_resolve (cg0 w0 : Client) (s : Store) (d : Doc) :
  role (profile cg0) = Caregiver →
  role (profile w0) = Elderly →
  deviceId (profile cg0) = deviceId (profile w0) →
  devices s !! deviceId (profile w0) = Some d →
  d !! "status" = Some (VStr "SOS") ∨ d !! "status" = Some (VStr "FALL") →
  let did := deviceId (profile w0) in
  let s1 := click BtnAmbulance (pushDevice s cg0) s in
  let s2 := click BtnResolve (pushDevice s1 w0) s1 in
  statusOf did s1 = Some (VStr "AMBULANCE")
  ∧ events s1 = events s ++
      [(autoId (nextId s),
        {[ "deviceId" := VStr did; "type" := VStr "AMBULANCE_REQUESTED";
           "timestamp" := VTimestamp (clock s + 2);
           "status" := VStr "DISPATCHED";
           "requestedBy" := VStr "caregiver" ]})]
  ∧ statusOf did s2 = Some (VStr "SAFE")
  ∧ events s2 = events s1 ++
      [(autoId (S (nextId s)),
        {[ "deviceId" := VStr did; "type" := VStr "EMERGENCY_RESOLVED";
           "timestamp" := VTimestamp (clock s + 4);
           "resolvedBy" := VStr "elderly" ]})].
Proof.
  intros Hcg Hw Hid Hd Hst did s1 s2.
  assert (Hd' : devices s !! deviceId (profile (pushDevice s cg0)) = Some d)
    by (by rewrite profile_pushDevice, Hid).
  assert (E1 : s1 = afterTransition RequestAmbulance (profile cg0) d s).
  { subst s1. unfold click, rendered, showOverlay.
    rewrite !(observes_pushDevice _ s cg0 d) by (by rewrite Hid).
    rewrite profile_pushDevice, Hcg.
    rewrite profile_pushDevice in Hd'.
    destruct Hst as [Hst|Hst]; rewrite (statusIs_true _ _ Hst); simpl;
      rewrite ?orb_true_r; simpl;
      by apply (settle_handler_found RequestAmbulance). }
  assert (Hd1 : devices s1 !! deviceId (profile w0)
                = Some (({[ "status" := VStr "AMBULANCE";
                            "lastUpdate" := VTimestamp (clock s + 1) ]} : Doc) ∪ d)).
  { rewrite E1, <-Hid. apply afterTransition_device. }
  assert (E2 : s2 = afterTransition ResolveEmergency (profile w0)
                      (({[ "status" := VStr "AMBULANCE";
                           "lastUpdate" := VTimestamp (clock s + 1) ]} : Doc) ∪ d) s1).
  { subst s2. unfold click, rendered, showOverlay.
    rewrite !(observes_pushDevice _ s1 w0 _ Hd1). rewrite profile_pushDevice.
    rewrite (statusIs_true "AMBULANCE") by (by apply lookup_union_Some_l).
    rewrite !orb_true_r. simpl.
    by apply (settle_handler_found ResolveEmergency). }
  split.
  { rewrite E1. subst did. rewrite <-Hid. apply afterTransition_status. }
  split.
  { rewrite E1. subst did. simpl. by rewrite Hcg, Hid. }
  split.
  { rewrite E2. apply afterTransition_status. }
  rewrite E2. simpl. rewrite Hw. rewrite E1. simpl.
  replace (clock s + 2 + 2) with (clock s + 4) by lia. done.
Qed.

Lemma ambulance_then_resolve_witness :
  let s := sampleStore "SOS" in
  let c0 r := mkClient (mkProfile r sampleId) None Dashboard None in
  let s1 := click BtnAmbulance (pushDevice s (c0 Caregiver)) s in
  let s2 := click BtnResolve (pushDevice s1 (c0 Elderly)) s1 in
  statusOf sampleId s = Some (VStr "SOS")
  ∧ statusOf sampleId s1 = Some (VStr "AMBULANCE")
  ∧ events s1 = events s ++
      [(autoId (nextId s),
        {[ "deviceId" := VStr sampleId; "type" := VStr "AMBULANCE_REQUESTED";
           "timestamp" := VTimestamp (clock s + 2);
           "status" := VStr "DISPATCHED";
           "requestedBy" := VStr "caregiver" ]})]
  ∧ statusOf sampleId s2 = Some (VStr "SAFE")
  ∧ events s2 = events s1 ++
      [(autoId (S (nextId s)),
        {[ "deviceId" := VStr sampleId; "type" := VStr "EMERGENCY_RESOLVED";
           "timestamp" := VTimestamp (clock s + 4);
           "resolvedBy" := VStr "elderly" ]})].
Proof.
  split; [reflexivity|].
  apply (ambulance_then_resolve
           (mkClient (mkProfile Caregiver sampleId) None Dashboard None)
           (mkClient (mkProfile Elderly sampleId) None Dashboard None)
           (sampleStore "SOS") (sampleDevice "SOS"));
    try reflexivity.
  left. reflexivity.
Defined.

(** C7 (as stated) fails on the name of one field: the event appended by the
    ambulance request carries the role under requestedBy, and no event in
    the store has a field actorRole. *)
Lemma ambulance_event_without_actorRole :
  let s := sampleStore "SOS" in
  let s1 := click BtnAmbulance (viewer Caregiver s) s in
  statusOf sampleId s1 = Some (VStr "AMBULANCE")
  ∧ ¬ ∃ e, e ∈ events s1
           ∧ e.2 !! "type" = Some (VStr "AMBULANCE_REQUESTED")
           ∧ e.2 !! "status" = Some (VStr "DISPATCHED")
           ∧ e.2 !! "actorRole" = Some (VStr "caregiver").
Proof.
  intros s s1.
  assert (E : events s1
              = [(autoId 0,
                  loggedEvent RequestAmbulance (mkProfile Caregiver sampleId) 2)])
    by evaluate.
  split; [evaluate|].
  intros (e & He & _ & _ & Hrole).
  rewrite E in He. apply list_elem_of_singleton in He. subst e.
  discriminate Hrole.
Qed.

(** ** The vitals sync of the simulator *)

Lemma vitalsEffect_off did cur sim s :
  autoUpdate sim = false → vitalsEffect did cur sim s = s.
Proof. intros H. unfold vitalsEffect. by rewrite H. Qed.

(** C10: with auto-fluctuate on, the effect that syncs the vitals writes
    status SAFE together with the vitals, whatever status the device record
    had (FALL, SOS and AMBULANCE included) and whatever the panel was shown
    as current state; so does every firing of the 3-second interval, with
    the fluctuated vitals. *)
Theorem auto_sync_writes_safe did cur sim s d r5 r3 :
  autoUpdate sim = true →
  devices s !! did = Some d →
  devices (vitalsEffect did cur sim s) !! did
    = Some (({[ "vitals" := VVitals (vitals sim);
                "status" := VStr "SAFE";
                "lastUpdate" := VTimestamp (clock s + 1) ]} : Doc) ∪ d)
  ∧ statusOf did (vitalsEffect did cur sim s) = Some (VStr "SAFE")
  ∧ statusOf did (onInterval r5 r3 did cur sim s).2 = Some (VStr "SAFE")
  ∧ devices (onInterval r5 r3 did cur sim s).2 !! did
      ≫= (λ d' : Doc, d' !! "vitals")
    = Some (VVitals (fluctuate r5 r3 (vitals sim))).
Proof.
  intros Ha Hd.
  assert (E : ∀ sim', autoUpdate sim' = true →
            vitalsEffect did cur sim' s
            = mkStore (<[did := ({[ "vitals" := VVitals (vitals sim');
                                    "status" := VStr "SAFE";
                                    "lastUpdate" := VTimestamp (clock s + 1) ]}
                                  : Doc) ∪ d]> (devices s))
                      (events s) (caregivers s) (clock s + 1) (nextId s)).
  { intros sim' Ha'. unfold vitalsEffect, syncToFirebase, settle.
    rewrite Ha'. by rewrite (updateDoc_found _ _ _ _ Hd). }
  split; [|split; [|split]].
  - rewrite (E sim Ha). simpl. by rewrite lookup_insert_eq.
  - rewrite (E sim Ha), statusOf_insert. by apply lookup_union_Some_l.
  - unfold onInterval. rewrite Ha, E by done. cbn [snd].
    rewrite statusOf_insert. by apply lookup_union_Some_l.
  - unfold onInterval. rewrite Ha, E by done. cbn [snd devices].
    rewrite lookup_insert_eq. simpl. by apply lookup_union_Some_l.
Qed.

Lemma auto_sync_writes_safe_witness :
  let s := sampleStore "FALL" in
  let sim := mkSim (mkVitals 75 98 82) true in
  statusOf sampleId s = Some (VStr "FALL")
  ∧ statusOf sampleId (vitalsEffect sampleId (devices s !! sampleId) sim s)
    = Some (VStr "SAFE")
  ∧ statusOf sampleId
      (onInterval 4 0 sampleId (devices s !! sampleId) sim s).2
    = Some (VStr "SAFE").
Proof.
  split; [reflexivity|].
  pose proof (auto_sync_writes_safe sampleId
                (devices (sampleStore "FALL") !! sampleId)
                (mkSim (mkVitals 75 98 82) true) (sampleStore "FALL")
                (sampleDevice "FALL") 4 0 eq_refl eq_refl) as (_ & H1 & H2 & _).
  exact (conj H1 H2).
Defined.

(** ** The escalation countdown *)

Lemma tick_idle c s : timerArmed c = false → tick c s = (c, s).
Proof. intros H. unfold tick. by rewrite H. Qed.

Lemma timerArmed_away c : observes "FALL" c = false → timerArmed c = false.
Proof. intros H. unfold timerArmed. rewrite H. by destruct (countdown c). Qed.

Lemma observes_onDeviceSnapshot st d c :
  observes st (onDeviceSnapshot (Some d) c) = statusIs st d.
Proof. unfold onDeviceSnapshot, observes. simpl. apply statusIs_withId. Qed.

Lemma runInputs_cons i ins c s :
  runInputs (i :: ins) c s
  = runInputs ins (clientInput (c, s) i).1 (clientInput (c, s) i).2.
Proof. unfold runInputs. simpl. by destruct (clientInput (c, s) i). Qed.

(** Inputs that never show FALL to a viewer that does not observe FALL
    leave the store alone. *)
Lemma runInputs_away ins c s :
  observes "FALL" c = false →
  Forall awayFromFall ins →
  (runInputs ins c s).2 = s ∧ observes "FALL" (runInputs ins c s).1 = false.
Proof.
  intros Hc Hins. revert c Hc.
  induction Hins as [|i ins Hi _ IH]; intros c Hc; [done|].
  rewrite runInputs_cons.
  destruct i as [|d]; unfold clientInput; cbn [fst snd].
  - rewrite (tick_idle c s) by (by apply timerArmed_away). by apply IH.
  - apply IH. by rewrite observes_onDeviceSnapshot.
Qed.

(** C6: once a viewer is pushed a device document whose status is not FALL,
    no interval is armed any more, and however many times the old interval
    would have fired, and whatever other non-FALL states are pushed, this
    viewer writes nothing: no FALL to SOS write and no FALL_ESCALATED
    event. *)
Theorem timer_cancelled_on_status_change c d s ins :
  statusIs "FALL" d = false →
  Forall awayFromFall ins →
  timerArmed (onDeviceSnapshot (Some d) c) = false
  ∧ (runInputs ins (onDeviceSnapshot (Some d) c) s).2 = s.
Proof.
  intros Hd Hins.
  assert (H : observes "FALL" (onDeviceSnapshot (Some d) c) = false)
    by (by rewrite observes_onDeviceSnapshot).
  split; [by apply timerArmed_away|].
  by apply runInputs_away.
Qed.

Lemma timer_cancelled_on_status_change_witness :
  let s := sampleStore "FALL" in
  let c := (ticks 5 (viewer Elderly s) s).1 in
  let d := sampleDevice "SOS" in
  let ins := [InTick; InTick; InPush (sampleDevice "AMBULANCE"); InTick] in
  timerArmed c = true
  ∧ statusIs "FALL" d = false
  ∧ Forall awayFromFall ins
  ∧ timerArmed (onDeviceSnapshot (Some d) c) = false
  ∧ (runInputs ins (onDeviceSnapshot (Some d) c) s).2 = s.
Proof.
  assert (H : Forall awayFromFall
                [InTick; InTick; InPush (sampleDevice "AMBULANCE"); InTick])
    by (repeat constructor).
  split; [reflexivity|]. split; [reflexivity|]. split; [exact H|].
  apply timer_cancelled_on_status_change; [reflexivity | exact H].
Defined.

Lemma ticks_add n m c s :
  ticks (n + m) c s = ticks m (ticks n c s).1 (ticks n c s).2.
Proof.
  revert c s. induction n as [|n IH]; intros c s; [done|].
  simpl. destruct (tick c s) as [c' s']. apply IH.
Qed.

Lemma setCountdown_id c m : countdown c = Some m → setCountdown m c = c.
Proof. destruct c; simpl. by intros ->. Qed.

(** While more than [k] units are left, [k] firings only count down. *)
Lemma countdown_runs k c s m :
  observes "FALL" c = true →
  countdown c = Some m →
  Z.of_nat k < m →
  ticks k c s = (setCountdown (m - Z.of_nat k) c, s).
Proof.
  revert c m. induction k as [|k IH]; intros c m Hf Hm Hk.
  - simpl. rewrite Z.sub_0_r. by rewrite setCountdown_id.
  - cbn [ticks]. unfold tick, timerArmed. rewrite Hm, Hf. simpl.
    rewrite bool_decide_eq_true_2 by lia.
    rewrite bool_decide_eq_false_2 by lia.
    rewrite (IH (setCountdown (m - 1) c) (m - 1)); [|done|done|lia].
    unfold setCountdown. simpl. do 3 f_equal. lia.
Qed.

(** The firing that finds one unit left escalates. *)
Lemma countdown_fires c s :
  observes "FALL" c = true →
  countdown c = Some 1 →
  tick c s = (setCountdown 0 c, settle (escalateToSOS (profile c)) s).
Proof. intros Hf Hm. unfold tick, timerArmed. by rewrite Hm, Hf. Qed.

(** At zero no interval is armed: later firings do nothing. *)
Lemma countdown_stopped n c s :
  countdown c = Some 0 → ticks n c s = (c, s).
Proof.
  intros Hm. induction n as [|n IH]; [done|].
  simpl. rewrite tick_idle; [done|].
  unfold timerArmed. rewrite Hm. by rewrite andb_false_r.
Qed.

(** Scenario 2, for a viewer whose overlay is mounted by the push of a FALL
    state: fewer than 15 firings write nothing; the 15th writes SOS and
    appends one FALL_ESCALATED event with status ACTIVE; later firings do
    nothing more. *)
Lemma fresh_fall_escalates_once c0 d s d0 :
  countdown c0 = None →
  statusIs "FALL" d = true →
  devices s !! deviceId (profile c0) = Some d0 →
  let c := onDeviceSnapshot (Some d) c0 in
  countdown c = Some 15
  ∧ (∀ k, (k < 15)%nat → (ticks k c s).2 = s)
  ∧ ∀ n, ticks (15 + n) c s
         = (setCountdown 0 c, afterTransition Escalate (profile c0) d0 s).
Proof.
  intros H0 Hd Hs c.
  assert (Hf : observes "FALL" c = true)
    by (subst c; by rewrite observes_onDeviceSnapshot).
  assert (Hc : countdown c = Some 15).
  { subst c. unfold onDeviceSnapshot, render, showOverlay. simpl.
    fold (observes "FALL" (onDeviceSnapshot (Some d) c0)).
    unfold observes at 1. simpl. rewrite statusIs_withId, Hd. simpl.
    by rewrite H0. }
  split; [done|]. split.
  - intros k Hk. by rewrite (countdown_runs k c s 15) by (done || lia).
  - intros n. rewrite ticks_add.
    change 15%nat with (14 + 1)%nat. rewrite ticks_add.
    rewrite (countdown_runs 14 c s 15) by (done || lia). cbn [fst snd ticks].
    rewrite countdown_fires by done.
    rewrite countdown_stopped by done. simpl.
    f_equal. by apply (settle_handler_found Escalate).
Qed.

(** C1, at the input where the code departs from it.  A viewer sees a FALL
    and escalates after 15 firings; the alert stays up in SOS; the simulator
    then signals a new fall.  The viewer observes FALL again, but the
    overlay was never unmounted and its countdown is still 0: no interval is
    armed, and no number of firings escalates this second fall. *)
Theorem second_fall_never_escalates :
  let s0 := sampleStore "FALL" in
  let c0 := viewer Elderly s0 in
  let s1 := (ticks 15 c0 s0).2 in
  let c1 := pushDevice s1 (ticks 15 c0 s0).1 in
  let s2 := (triggerFall sampleId sampleSim s1).2 in
  let c2 := pushDevice s2 c1 in
  statusOf sampleId s1 = Some (VStr "SOS")
  ∧ observes "SOS" c1 = true
  ∧ statusOf sampleId s2 = Some (VStr "FALL")
  ∧ observes "FALL" c2 = true
  ∧ countdown c2 = Some 0
  ∧ timerArmed c2 = false
  ∧ ∀ n, ticks n c2 s2 = (c2, s2).
Proof.
  intros s0 c0 s1 c1 s2 c2.
  assert (H0 : countdown c2 = Some 0) by evaluate.
  do 6 (split; [evaluate|]).
  intros n. by apply countdown_stopped.
Qed.

(** ** Sorting *)

Section SortFacts.
Context {A : Type} (cmp : A → A → Z) (R : relation A) `{!Transitive R}.

Lemma insertBy_perm x l : insertBy cmp x l ≡ₚ x :: l.
Proof.
  induction l as [|y l IH]; simpl; [done|].
  case_bool_decide; [done|]. by rewrite IH, Permutation_swap.
Qed.

Lemma sortBy_perm l : sortBy cmp l ≡ₚ l.
Proof.
  induction l as [|x l IH]; simpl; [done|].
  by rewrite insertBy_perm, IH.
Qed.

(** Inserting into a sorted list keeps it sorted when the comparator
    agrees with the order on the elements involved. *)
Lemma insertBy_sorted x l :
  (∀ b, b ∈ l → (cmp x b ≤ 0 → R x b) ∧ (0 < cmp x b → R b x)) →
  StronglySorted R l →
  StronglySorted R (insertBy cmp x l).
Proof.
  intros Hx Hl. induction Hl as [|y l Hl IH Hy]; simpl.
  - repeat constructor.
  - case_bool_decide as Hc.
    + constructor; [by constructor|].
      assert (Rxy : R x y) by (apply Hx; [left|done]).
      constructor; [done|].
      eapply Forall_impl; [exact Hy|]. intros z Hz. by trans y.
    + constructor.
      * apply IH. intros b Hb. apply Hx. by right.
      * rewrite insertBy_perm. constructor; [|done].
        apply Hx; [left|lia].
Qed.

Lemma sortBy_sorted l :
  (∀ a b, a ∈ l → b ∈ l → (cmp a b ≤ 0 → R a b) ∧ (0 < cmp a b → R b a)) →
  StronglySorted R (sortBy cmp l).
Proof.
  induction l as [|x l IH]; intros H; simpl; [constructor|].
  apply insertBy_sorted.
  - intros b Hb. rewrite sortBy_perm in Hb. apply H; [left|by right].
  - apply IH. intros a b Ha Hb. apply H; by right.
Qed.
End SortFacts.

#[local] Instance newest_first_trans :
  Transitive (λ a b : Doc, millis b ≤ millis a).
Proof. intros a b c ??. lia. Qed.

(** ** The history a viewer reconstructs *)



(** ** The caregiver roster *)

#[local] Instance by_priority_trans :
  Transitive (λ a b : Doc, default 0 (priority a) ≤ default 0 (priority b)).
Proof. intros a b c ??. lia. Qed.

Lemma myCaregivers_perm did snapshot :
  myCaregivers did snapshot ≡ₚ filter (λ e, ofDevice did e) (docsOf snapshot).
Proof. apply sortBy_perm. Qed.

(** The list shown to viewers is in ascending priority, provided every
    caregiver document of the device has a numeric priority. *)
Lemma myCaregivers_sorted did snapshot :
  Forall (λ c, is_Some (priority c))
         (filter (λ e, ofDevice did e) (docsOf snapshot)) →
  StronglySorted (λ a b : Doc, default 0 (priority a) ≤ default 0 (priority b))
                 (myCaregivers did snapshot).
Proof.
  intros H. apply sortBy_sorted; [apply _|].
  intros a b Ha Hb. rewrite Forall_forall in H.
  destruct (H a Ha) as [x Hx], (H b Hb) as [y Hy].
  unfold cmpPriority. rewrite Hx, Hy. simpl. lia.
Qed.

(** A successful add appends one caregiver of the device whose priority is
    the current number of caregivers plus one. *)
Lemma handleAdd_appends did name phone s :
  name ≠ EmptyString → phone ≠ EmptyString →
  ∃ c, deviceCaregivers did
         (handleAdd did (myCaregivers did (caregivers s)) name phone s)
       = deviceCaregivers did s ++ [c]
       ∧ priority c
         = Some (Z.of_nat (S (length (deviceCaregivers did s)))).
Proof.
  intros Hn Hp. unfold handleAdd.
  rewrite !bool_decide_eq_false_2 by done. simpl.
  unfold deviceCaregivers, addCaregiver, docsOf. simpl.
  rewrite fmap_app, filter_app. simpl.
  rewrite (Permutation_length (myCaregivers_perm did (caregivers s))).
  unfold docsOf.
  set (n := length (filter _ _)).
  eexists. split.
  - f_equal. rewrite filter_cons_True; [by rewrite filter_nil|].
    unfold ofDevice. simpl. apply bool_decide_pack. reflexivity.
  - unfold priority. simpl.
    replace (Z.of_nat n + 1) with (Z.of_nat (S n)) by lia. reflexivity.
Qed.

(** Adding alone keeps the priorities of a device the numbers 1 .. n, hence
    positive and pairwise distinct. *)
Lemma handleAdd_keeps_dense did name phone s n :
  name ≠ EmptyString → phone ≠ EmptyString →
  priority <$> deviceCaregivers did s ≡ₚ firstPriorities n →
  priority <$> deviceCaregivers did
                 (handleAdd did (myCaregivers did (caregivers s)) name phone s)
  ≡ₚ firstPriorities (S n).
Proof.
  intros Hn Hp H.
  destruct (handleAdd_appends did name phone s Hn Hp) as (c & -> & Hc).
  rewrite fmap_app. simpl. rewrite Hc.
  assert (L : length (deviceCaregivers did s) = n).
  { apply Permutation_length in H.
    unfold firstPriorities in H. by rewrite !length_fmap, length_seq in H. }
  rewrite L, H. unfold firstPriorities.
  rewrite seq_S, fmap_app. done.
Qed.

Lemma firstPriorities_NoDup n : NoDup (firstPriorities n).
Proof.
  unfold firstPriorities. apply NoDup_fmap_2; [|apply NoDup_seq].
  intros a b [=]. lia.
Qed.

(** C9, at the input where the code departs from it: two caregivers are
    added, the first one is removed, a third is added.  The new caregiver
    gets the number of remaining caregivers plus one, which is the priority
    the second caregiver already has. *)
Theorem priority_reused_after_removal :
  let s := rosterRun sampleId rosterWithRemoval (sampleStore "SAFE") in
  let cgs := myCaregivers sampleId (caregivers s) in
  (λ c : Doc, (c !! "name", priority c)) <$> cgs
    = [(Some (VStr "Ben"), Some 2); (Some (VStr "Chen"), Some 2)]
  ∧ ¬ NoDup (priority <$> cgs).
Proof.
  intros s cgs.
  assert (E : priority <$> cgs = [Some 2; Some 2]) by evaluate.
  split; [evaluate|].
  rewrite E. intros H. apply NoDup_cons in H as [H _].
  apply H. left.
Qed.

(** ** The scenarios of the specification, run on the sample device *)

(** Scenario 1: a hardware fall, then the wearer's cancel. *)
Example scenario_cancel :
  let s0 := sampleStore "SAFE" in
  let s1 := (triggerFall sampleId sampleSim s0).2 in
  let s2 := click BtnCancel (viewer Elderly s1) s1 in
  statusOf sampleId s1 = Some (VStr "FALL")
  ∧ statusOf sampleId s2 = Some (VStr "SAFE")
  ∧ (λ e : string * Doc, (e.2 !! "type", e.2 !! "status")) <$> events s2
    = [(Some (VStr "FALSE_ALARM"), Some (VStr "RESOLVED"))].
Proof. evaluate. Qed.

(** Scenario 2: nobody acts for 15 ticks; after 14 nothing is written. *)
Example scenario_escalation :
  let s0 := sampleStore "FALL" in
  let c0 := viewer Elderly s0 in
  (ticks 14 c0 s0).2 = s0
  ∧ statusOf sampleId (ticks 15 c0 s0).2 = Some (VStr "SOS")
  ∧ (λ e : string * Doc, (e.2 !! "type", e.2 !! "status"))
      <$> events (ticks 15 c0 s0).2
    = [(Some (VStr "FALL_ESCALATED"), Some (VStr "ACTIVE"))]
  ∧ (ticks 40 c0 s0).2 = (ticks 15 c0 s0).2.
Proof. evaluate. Qed.

(** Scenario 4: the wearer's manual SOS from SAFE. *)
Example scenario_manual_sos :
  let s0 := sampleStore "SAFE" in
  let s1 := click BtnSOS (viewer Elderly s0) s0 in
  statusOf sampleId s1 = Some (VStr "SOS")
  ∧ (λ e : string * Doc, (e.2 !! "type", e.2 !! "status")) <$> events s1
    = [(Some (VStr "MANUAL_SOS"), Some (VStr "ACTIVE"))].
Proof. evaluate. Qed.

(** A pushed event set with a foreign event and an event whose timestamp is
    not resolved yet: the latter sorts as time 0. *)
Example history_sample :
  (λ e : Doc, e !! "type") <$>
    myEvents sampleId
      [("a"%string, {[ "deviceId" := VStr sampleId; "type" := VStr "MANUAL_SOS";
                       "timestamp" := VTimestamp 10 ]});
       ("b"%string, {[ "deviceId" := VStr "ESP32-OTHER"; "type" := VStr "FALSE_ALARM";
                       "timestamp" := VTimestamp 20 ]});
       ("c"%string, {[ "deviceId" := VStr sampleId; "type" := VStr "EMERGENCY_RESOLVED";
                       "timestamp" := VTimestamp 30 ]});
       ("d"%string, {[ "deviceId" := VStr sampleId; "type" := VStr "FALL_ESCALATED";
                       "timestamp" := VNull ]})]
  = [Some (VStr "EMERGENCY_RESOLVED"); Some (VStr "MANUAL_SOS");
     Some (VStr "FALL_ESCALATED")].
Proof. evaluate. Qed.

(** * Further properties of the code *)

(** ** Runs of the program: what no step does *)

Lemma settle_updateDoc_caregivers did fields s :
  caregivers (settle (updateDoc did fields) s) = caregivers s.
Proof.
  unfold settle, updateDoc. by destruct (devices s !! did).
Qed.

Lemma settle_updateDoc_dom did fields s :
  dom (devices (settle (updateDoc did fields) s)) = dom (devices s).
Proof.
  unfold settle, updateDoc. destruct (devices s !! did) as [d|] eqn:E; [|done].
  simpl. apply dom_insert_lookup_L. by exists d.
Qed.

Lemma settle_updateDoc_missing did fields s :
  devices s !! did = None → settle (updateDoc did fields) s = s.
Proof. intros H. unfold settle. by rewrite updateDoc_missing. Qed.

Lemma afterTransition_dom a p d s :
  devices s !! deviceId p = Some d →
  dom (devices (afterTransition a p d s)) = dom (devices s).
Proof. intros H. simpl. apply dom_insert_lookup_L. by exists d. Qed.

Lemma handleAdd_events did cgs name phone s :
  events (handleAdd did cgs name phone s) = events s.
Proof. unfold handleAdd. by destruct (_ || _). Qed.

Lemma handleAdd_devices did cgs name phone s :
  devices (handleAdd did cgs name phone s) = devices s.
Proof. unfold handleAdd. by destruct (_ || _). Qed.

Lemma simStep_dom ev did cur sim s :
  dom (devices (simStep ev did cur sim s).2) = dom (devices s).
Proof.
  destruct ev; simpl;
    unfold onInterval, triggerFall, triggerSOS, resetDevice, vitalsEffect,
      syncToFirebase; simpl;
    repeat match goal with
           | |- context [if ?b then _ else _] => destruct b; simpl
           end;
    rewrite ?settle_updateDoc_dom; done.
Qed.

Lemma worldStep_events_prefix s st : events s `prefix_of` events (worldStep s st).
Proof.
  destruct st as [c ev|ev did cur sim|did cgs name phone|id]; simpl.
  - destruct (clientStep_transition ev c s) as [->|(d & _ & _ & ->)]; [done|].
    simpl. by apply prefix_app_r.
  - by rewrite simStep_events.
  - by rewrite handleAdd_events.
  - done.
Qed.

Lemma worldStep_dom s st : dom (devices (worldStep s st)) = dom (devices s).
Proof.
  destruct st as [c ev|ev did cur sim|did cgs name phone|id]; simpl.
  - destruct (clientStep_transition ev c s) as [->|(d & _ & Hd & ->)]; [done|].
    by apply afterTransition_dom.
  - apply simStep_dom.
  - by rewrite handleAdd_devices.
  - done.
Qed.

(** X1: the event log is append-only.  Whatever viewers, simulator panels and
    care team screens do, in any order, the events present before are still
    there afterwards, unchanged and in the same positions: the log only
    grows at its end. *)
Theorem event_log_append_only (steps : list WorldStep) (s : Store) :
  events s `prefix_of` events (runWorld steps s).
Proof.
  revert s. induction steps as [|st steps IH]; intros s; [done|].
  unfold runWorld in *. simpl.
  etrans; [apply (worldStep_events_prefix s st)|apply IH].
Qed.

(** X2: no step of the program creates or deletes a device document: the set
    of device ids in the store is the same after any run. *)
Theorem device_set_constant (steps : list WorldStep) (s : Store) :
  dom (devices (runWorld steps s)) = dom (devices s).
Proof.
  revert s. induction steps as [|st steps IH]; intros s; [done|].
  unfold runWorld in *. simpl. by rewrite IH, worldStep_dom.
Qed.

Lemma resolve_status now (fields : Doc) st :
  fields !! "status" = Some (VStr st) →
  resolve now fields !! "status" = Some (VStr st).
Proof. intros H. unfold resolve. by rewrite lookup_fmap, H. Qed.

(** A write that sets a known status keeps all statuses known. *)
Lemma statusesKnown_update did (fields : Doc) st s :
  fields !! "status" = Some (VStr st) →
  st ∈ ["SAFE"; "FALL"; "SOS"; "AMBULANCE"]%string →
  statusesKnown s →
  statusesKnown (settle (updateDoc did fields) s).
Proof.
  intros Hf Hst Hs. unfold settle, updateDoc.
  destruct (devices s !! did) as [old|] eqn:E; [|done].
  intros id d. simpl. destruct (decide (did = id)) as [->|Hne].
  - rewrite lookup_insert_eq. intros [= <-]. exists st. split; [|done].
    apply lookup_union_Some_l. by apply resolve_status.
  - rewrite lookup_insert_ne by done. apply Hs.
Qed.

Lemma statusesKnown_devices s s' :
  devices s' = devices s → statusesKnown s → statusesKnown s'.
Proof. intros E H id d. rewrite E. apply H. Qed.

Lemma tableTarget_known a :
  tableTarget a ∈ ["SAFE"; "FALL"; "SOS"; "AMBULANCE"]%string.
Proof. destruct a; simpl; set_solver. Qed.

Lemma worldStep_statusesKnown s st :
  statusesKnown s → statusesKnown (worldStep s st).
Proof.
  intros Hs.
  destruct st as [c ev|ev did cur sim|did cgs name phone|id]; simpl.
  - destruct (clientStep_transition ev c s) as [->|(d & _ & Hd & ->)]; [done|].
    intros id d'. simpl. destruct (decide (deviceId (profile c) = id)) as [<-|Hne].
    + rewrite lookup_insert_eq. intros [= <-].
      exists (tableTarget (actionOf ev)). split; [|apply tableTarget_known].
      by apply lookup_union_Some_l.
    + rewrite lookup_insert_ne by done. apply Hs.
  - destruct ev; simpl;
      unfold onInterval, triggerFall, triggerSOS, resetDevice, vitalsEffect,
        syncToFirebase; simpl;
      repeat match goal with
             | |- context [if ?b then _ else _] => destruct b; simpl
             end;
      try done;
      repeat (eapply statusesKnown_update; [reflexivity|set_solver|]); done.
  - eapply statusesKnown_devices; [apply handleAdd_devices|done].
  - done.
Qed.

(** X3: the status of every device stays one of SAFE, FALL, SOS and
    AMBULANCE: if that holds of the store, it holds after any run of
    viewers, simulator panels and care team screens. *)
Theorem status_vocabulary_kept (steps : list WorldStep) (s : Store) :
  statusesKnown s → statusesKnown (runWorld steps s).
Proof.
  revert s. induction steps as [|st steps IH]; intros s Hs; [done|].
  unfold runWorld in *. simpl. apply IH. by apply worldStep_statusesKnown.
Qed.

Lemma status_vocabulary_kept_witness :
  let steps := [PanelDoes SimFall sampleId None sampleSim;
                ViewerDoes (viewer Caregiver (sampleStore "FALL"))
                           (Click BtnAmbulance);
                PanelDoes SimReset sampleId None sampleSim] in
  statusesKnown (sampleStore "SAFE")
  ∧ statusesKnown (runWorld steps (sampleStore "SAFE")).
Proof.
  assert (H : statusesKnown (sampleStore "SAFE")).
  { intros id d. unfold sampleStore. simpl.
    intros [<- <-]%lookup_singleton_Some.
    exists "SAFE"%string. split; [reflexivity|set_solver]. }
  split; [exact H|].
  apply status_vocabulary_kept. exact H.
Defined.

(** X4: when the store has no document for the device, a viewer's event and
    a simulator event write nothing at all: the rejected [updateDoc] ends the
    viewer's handler before its [addDoc], and the panel swallows the
    error. *)
Theorem missing_device_nothing_written ev sev cur sim c s :
  devices s !! deviceId (profile c) = None →
  (clientStep ev c s).2 = s
  ∧ (simStep sev (deviceId (profile c)) cur sim s).2 = s.
Proof.
  intros H. split.
  - rewrite clientStep_store. destruct (issues ev c); [|done].
    by apply settle_handler_missing.
  - destruct sev; simpl;
      unfold onInterval, triggerFall, triggerSOS, resetDevice, vitalsEffect,
        syncToFirebase; simpl;
      repeat match goal with
             | |- context [if ?b then _ else _] => destruct b; simpl
             end;
      rewrite ?(settle_updateDoc_missing _ _ _ H); done.
Qed.

Lemma missing_device_nothing_written_witness :
  let s := mkStore ∅ [] [] 0 0 in
  let c := mkClient (mkProfile Elderly sampleId)
                    (Some (sampleDevice "SAFE")) Dashboard None in
  devices s !! deviceId (profile c) = None
  ∧ (clientStep (Click BtnSOS) c s).2 = s
  ∧ (simStep SimFall (deviceId (profile c)) None sampleSim s).2 = s.
Proof.
  split; [reflexivity|].
  apply missing_device_nothing_written. reflexivity.
Defined.

(** X5: a viewer's event touches nothing but the status and lastUpdate
    fields of the viewer's own device document: every other field of that
    document (vitals, pairedElderly), every other device and the caregiver
    collection are as before. *)
Theorem viewer_step_frame ev c s id (k : string) :
  id ≠ deviceId (profile c) ∨ (k ≠ "status"%string ∧ k ≠ "lastUpdate"%string) →
  (devices (clientStep ev c s).2 !! id ≫= (λ d : Doc, d !! k))
  = (devices s !! id ≫= (λ d : Doc, d !! k))
  ∧ caregivers (clientStep ev c s).2 = caregivers s.
Proof.
  intros H.
  destruct (clientStep_transition ev c s) as [->|(d & _ & Hd & ->)]; [done|].
  split; [|done]. simpl.
  destruct (decide (deviceId (profile c) = id)) as [<-|Hne].
  - destruct H as [H|[H1 H2]]; [done|].
    rewrite lookup_insert_eq, Hd. simpl.
    rewrite lookup_union_r; [done|].
    rewrite lookup_insert_ne by done. by rewrite lookup_singleton_ne.
  - by rewrite lookup_insert_ne.
Qed.

Lemma viewer_step_frame_witness :
  let s := sampleStore "FALL" in
  let c := viewer Elderly s in
  (sampleId ≠ deviceId (profile c)
   ∨ ("vitals"%string ≠ "status"%string ∧ "vitals"%string ≠ "lastUpdate"%string))
  ∧ (devices (clientStep (Click BtnCancel) c s).2 !! sampleId
       ≫= (λ d : Doc, d !! "vitals"))
    = Some (VVitals (mkVitals 75 98 100)).
Proof.
  assert (H : sampleId ≠ deviceId (profile (viewer Elderly (sampleStore "FALL")))
              ∨ ("vitals"%string ≠ "status"%string
                 ∧ "vitals"%string ≠ "lastUpdate"%string))
    by (right; split; discriminate).
  split; [exact H|].
  exact (proj1 (viewer_step_frame (Click BtnCancel)
                  (viewer Elderly (sampleStore "FALL")) (sampleStore "FALL")
                  sampleId "vitals" H)).
Defined.

(** X6: the last writer wins and every action is logged.  When two
    transitions reach the same device one after the other, whoever issues
    them, the status is the target of the second one and the log has gained
    the event of the first followed by the event of the second (two
    ambulance requests leave the status AMBULANCE and two
    AMBULANCE_REQUESTED events). *)
Theorem last_writer_wins a1 a2 p1 p2 s d :
  deviceId p1 = deviceId p2 →
  devices s !! deviceId p1 = Some d →
  let s2 := settle (handlerOf a2 p2) (settle (handlerOf a1 p1) s) in
  statusOf (deviceId p1) s2 = Some (VStr (tableTarget a2))
  ∧ typesOf (events s2)
    = typesOf (events s)
      ++ [Some (VStr (tableEvent a1)); Some (VStr (tableEvent a2))].
Proof.
  intros Hid Hd s2. subst s2.
  rewrite (settle_handler_found a1 p1 s d Hd).
  rewrite (settle_handler_found a2 p2 _ _
             ltac:(rewrite <-Hid; apply afterTransition_device)).
  split.
  - rewrite Hid. apply afterTransition_status.
  - simpl. unfold typesOf. rewrite !fmap_app. simpl.
    rewrite !loggedEvent_type. by rewrite <-app_assoc.
Qed.

Lemma last_writer_wins_witness :
  let s := sampleStore "SOS" in
  let p1 := mkProfile Caregiver sampleId in
  let p2 := mkProfile Caregiver sampleId in
  let s2 := settle (handleRequestAmbulance p2)
                   (settle (handleRequestAmbulance p1) s) in
  statusOf sampleId s2 = Some (VStr "AMBULANCE")
  ∧ typesOf (events s2)
    = [Some (VStr "AMBULANCE_REQUESTED"); Some (VStr "AMBULANCE_REQUESTED")].
Proof.
  exact (last_writer_wins RequestAmbulance RequestAmbulance
           (mkProfile Caregiver sampleId) (mkProfile Caregiver sampleId)
           (sampleStore "SOS") (sampleDevice "SOS") eq_refl eq_refl).
Defined.

(** X7: no viewer ever writes the status FALL: if a device is in FALL after a
    viewer's event, it was in FALL before it.  Falls come from the hardware
    side only. *)
Theorem viewers_never_write_fall ev c s id :
  statusOf id (clientStep ev c s).2 = Some (VStr "FALL") →
  statusOf id s = Some (VStr "FALL").
Proof.
  destruct (clientStep_transition ev c s) as [->|(d & _ & Hd & ->)]; [done|].
  destruct (decide (deviceId (profile c) = id)) as [<-|Hne].
  - rewrite afterTransition_status. intros [= H]. by destruct (actionOf ev).
  - unfold statusOf. simpl. by rewrite lookup_insert_ne.
Qed.

Lemma viewers_never_write_fall_witness :
  let s := sampleStore "FALL" in
  let c := viewer Caregiver s in
  statusOf sampleId (clientStep (Click BtnCancel) c s).2 = Some (VStr "FALL")
  ∧ statusOf sampleId s = Some (VStr "FALL").
Proof.
  assert (H : statusOf sampleId
                (clientStep (Click BtnCancel)
                   (viewer Caregiver (sampleStore "FALL")) (sampleStore "FALL")).2
              = Some (VStr "FALL")) by reflexivity.
  split; [exact H|].
  exact (viewers_never_write_fall _ _ _ _ H).
Defined.

(** ** The countdown over arbitrary inputs *)

Lemma tick_countdownInRange c s :
  countdownInRange c → countdownInRange (tick c s).1.
Proof.
  intros H. unfold tick.
  destruct (timerArmed c) eqn:T; [|done].
  unfold timerArmed in T. unfold countdownInRange in *.
  destruct (countdown c) as [n|]; [|done].
  apply andb_true_iff in T as [_ T]. apply bool_decide_eq_true in T.
  case_bool_decide; simpl; lia.
Qed.

Lemma onDeviceSnapshot_countdownInRange d c :
  countdownInRange c → countdownInRange (onDeviceSnapshot (Some d) c).
Proof.
  unfold countdownInRange, onDeviceSnapshot, render. simpl.
  destruct (showOverlay _); [|done].
  destruct (countdown c); simpl; lia.
Qed.

(** X8: the countdown of the alert overlay is always between 0 and 15.
    Starting from a viewer for which that holds (one without overlay, for
    instance), it holds after any sequence of interval firings and pushed
    device states. *)
Theorem countdown_stays_in_range ins c s :
  countdownInRange c → countdownInRange (runInputs ins c s).1.
Proof.
  revert c s. induction ins as [|i ins IH]; intros c s H; [done|].
  rewrite runInputs_cons. apply IH.
  destruct i as [|d]; unfold clientInput; cbn [fst snd].
  - by apply tick_countdownInRange.
  - by apply onDeviceSnapshot_countdownInRange.
Qed.

Lemma countdown_stays_in_range_witness :
  let c := mkClient (mkProfile Elderly sampleId) None Dashboard None in
  let ins := [InPush (sampleDevice "FALL"); InTick; InTick;
              InPush (sampleDevice "SOS"); InPush (sampleDevice "FALL"); InTick] in
  countdownInRange c
  ∧ countdownInRange (runInputs ins c (sampleStore "FALL")).1.
Proof.
  split; [exact I|].
  apply countdown_stays_in_range. exact I.
Defined.

Lemma countdown_onDeviceSnapshot d c :
  countdown (onDeviceSnapshot (Some d) c)
  = if statusIs "FALL" d || statusIs "SOS" d || statusIs "AMBULANCE" d
    then Some (default 15 (countdown c)) else None.
Proof.
  unfold onDeviceSnapshot, render, showOverlay, observes. simpl.
  by rewrite !statusIs_withId.
Qed.

Lemma onDeviceSnapshot_keeps_countdown d c n :
  statusIs "FALL" d || statusIs "SOS" d || statusIs "AMBULANCE" d = true →
  countdown c = Some n →
  countdown (onDeviceSnapshot (Some d) c) = Some n.
Proof.
  intros Hd Hn. by rewrite countdown_onDeviceSnapshot, Hd, Hn.
Qed.

(** X9: while the alert overlay stays on screen its countdown never goes
    back up: after any interval firings and pushes of FALL, SOS or AMBULANCE
    states it is at most what it was.  Once it is 0, those inputs make this
    viewer write nothing more. *)
Theorem countdown_never_restarts ins c s n :
  countdown c = Some n →
  Forall keepsOverlay ins →
  (∃ m, countdown (runInputs ins c s).1 = Some m ∧ m ≤ n)
  ∧ (n ≤ 0 → (runInputs ins c s).2 = s).
Proof.
  intros Hn Hins. revert c s n Hn.
  induction Hins as [|i ins Hi _ IH]; intros c s n Hn.
  { split; [exists n; by split|done]. }
  rewrite runInputs_cons.
  destruct i as [|d]; unfold clientInput; cbn [fst snd].
  - unfold tick, timerArmed. rewrite Hn.
    destruct (observes "FALL" c); simpl; [|by apply IH].
    case_bool_decide as Hpos; simpl; [|by apply IH].
    case_bool_decide as Hle; simpl.
    + destruct (IH (setCountdown 0 c)
                  (settle (escalateToSOS (profile c)) s) 0 eq_refl)
        as [(m & Hm & Hle0) _].
      split; [exists m; split; [done|lia]|lia].
    + destruct (IH (setCountdown (n - 1) c) s (n - 1) eq_refl)
        as [(m & Hm & Hle1) _].
      split; [exists m; split; [done|lia]|lia].
  - apply IH. by apply onDeviceSnapshot_keeps_countdown.
Qed.

Lemma countdown_never_restarts_witness :
  let s := sampleStore "FALL" in
  let c := (ticks 15 (viewer Elderly s) s).1 in
  let ins := [InPush (sampleDevice "SOS"); InPush (sampleDevice "FALL");
              InTick; InTick] in
  countdown c = Some 0
  ∧ Forall keepsOverlay ins
  ∧ (runInputs ins c s).2 = s.
Proof.
  assert (Hc : countdown (ticks 15 (viewer Elderly (sampleStore "FALL"))
                            (sampleStore "FALL")).1 = Some 0)
    by (vm_compute; reflexivity).
  assert (Hi : Forall keepsOverlay
                 [InPush (sampleDevice "SOS"); InPush (sampleDevice "FALL");
                  InTick; InTick])
    by (repeat constructor).
  split; [exact Hc|]. split; [exact Hi|].
  exact (proj2 (countdown_never_restarts _ _ (sampleStore "FALL") 0 Hc Hi)
           (Z.le_refl 0)).
Defined.

(** X10: a push without alert status unmounts the overlay, so the next
    FALL starts from 15 with the interval armed, whatever the countdown was
    before. *)
Theorem countdown_reset_by_unmount d1 d2 c :
  statusIs "FALL" d1 || statusIs "SOS" d1 || statusIs "AMBULANCE" d1 = false →
  statusIs "FALL" d2 = true →
  let c' := onDeviceSnapshot (Some d2) (onDeviceSnapshot (Some d1) c) in
  countdown (onDeviceSnapshot (Some d1) c) = None
  ∧ countdown c' = Some 15
  ∧ timerArmed c' = true.
Proof.
  intros H1 H2 c'.
  assert (E1 : countdown (onDeviceSnapshot (Some d1) c) = None).
  { by rewrite countdown_onDeviceSnapshot, H1. }
  assert (E2 : countdown c' = Some 15).
  { subst c'. by rewrite countdown_onDeviceSnapshot, H2, E1. }
  split; [done|]. split; [done|].
  unfold timerArmed. rewrite E2. subst c'.
  by rewrite observes_onDeviceSnapshot, H2.
Qed.

Lemma countdown_reset_by_unmount_witness :
  let s := sampleStore "FALL" in
  let c := (ticks 15 (viewer Elderly s) s).1 in
  let c' := onDeviceSnapshot (Some (sampleDevice "FALL"))
              (onDeviceSnapshot (Some (sampleDevice "SAFE")) c) in
  countdown c = Some 0 ∧ countdown c' = Some 15 ∧ timerArmed c' = true.
Proof.
  split; [vm_compute; reflexivity|].
  exact (proj2 (countdown_reset_by_unmount (sampleDevice "SAFE")
                  (sampleDevice "FALL")
                  (ticks 15 (viewer Elderly (sampleStore "FALL"))
                     (sampleStore "FALL")).1 eq_refl eq_refl)).
Defined.

(** X11: a viewer of either role that observes FALL with [k + 1] on its
    countdown escalates at the firing number [k + 1] and not before: the
    first [k] firings write nothing, the next one sets the status to SOS and
    appends the FALL_ESCALATED event. *)
Theorem escalation_after_remaining (k : nat) c s d0 :
  observes "FALL" c = true →
  countdown c = Some (Z.of_nat (S k)) →
  devices s !! deviceId (profile c) = Some d0 →
  (∀ j, (j ≤ k)%nat → (ticks j c s).2 = s)
  ∧ ticks (S k) c s
    = (setCountdown 0 c, afterTransition Escalate (profile c) d0 s).
Proof.
  intros Hf Hc Hd. split.
  - intros j Hj. by rewrite (countdown_runs j c s _ Hf Hc) by lia.
  - replace (S k) with (k + 1)%nat by lia. rewrite ticks_add.
    rewrite (countdown_runs k c s _ Hf Hc) by lia. cbn [fst snd ticks].
    rewrite countdown_fires; [| done | simpl; f_equal; lia].
    simpl. f_equal. by apply (settle_handler_found Escalate).
Qed.

Lemma escalation_after_remaining_witness :
  let s := sampleStore "FALL" in
  let c := (ticks 8 (viewer Caregiver s) s).1 in
  countdown c = Some 7
  ∧ (ticks 6 c s).2 = s
  ∧ statusOf sampleId (ticks 7 c s).2 = Some (VStr "SOS").
Proof.
  pose proof (escalation_after_remaining 6
                (ticks 8 (viewer Caregiver (sampleStore "FALL"))
                   (sampleStore "FALL")).1
                (sampleStore "FALL") (sampleDevice "FALL")
                eq_refl eq_refl eq_refl) as [H1 H2].
  split; [reflexivity|]. split; [exact (H1 6%nat (le_n 6))|].
  rewrite H2. reflexivity.
Defined.

(** ** The controls of the overlay *)

(** X12: whenever the alert overlay is on screen it offers the viewer at
    least one control, and without overlay none of its controls exists;
    cancel is never offered together with resolve or with the ambulance
    call. *)
Theorem overlay_controls c :
  rendered BtnCancel c || rendered BtnAmbulance c || rendered BtnResolve c
  = showOverlay c
  ∧ rendered BtnCancel c && rendered BtnResolve c = false
  ∧ rendered BtnCancel c && rendered BtnAmbulance c = false.
Proof.
  unfold rendered, showOverlay, observes, statusIs.
  destruct (device c) as [d|]; simpl; [|done].
  destruct (role (profile c)); simpl;
    destruct (d !! "status") as [[]|]; simpl; try done;
    repeat case_bool_decide; simplify_eq; done.
Qed.

(** ** The simulator panel *)

Lemma settle_updateDoc_found did fields s d :
  devices s !! did = Some d →
  settle (updateDoc did fields) s
  = mkStore (<[did := resolve (clock s + 1) fields ∪ d]> (devices s))
            (events s) (caregivers s) (clock s + 1) (nextId s).
Proof. intros H. unfold settle. by rewrite (updateDoc_found _ _ _ _ H). Qed.

Lemma afterTransition_events a p d s :
  events (afterTransition a p d s)
  = events s ++ [(autoId (nextId s), loggedEvent a p (clock s + 2))].
Proof. reflexivity. Qed.

(** X13: every firing of the auto-fluctuate interval stores vitals within
    the simulated ranges: heart rate 60 to 120 and SpO2 90 to 100, whatever
    the random draws and whatever the sliders had been set to; the battery
    value is carried over.  From a heart rate within range, draws in 0..4
    move it by at most 2. *)
Theorem fluctuation_in_range r5 r3 did cur sim s d :
  autoUpdate sim = true →
  devices s !! did = Some d →
  let r := onInterval r5 r3 did cur sim s in
  (devices r.2 !! did ≫= (λ d' : Doc, d' !! "vitals"))
    = Some (VVitals (vitals r.1))
  ∧ 60 ≤ heartRate (vitals r.1) ≤ 120
  ∧ 90 ≤ spo2 (vitals r.1) ≤ 100
  ∧ battery (vitals r.1) = battery (vitals sim)
  ∧ (0 ≤ r5 ≤ 4 → 60 ≤ heartRate (vitals sim) ≤ 120 →
     -2 ≤ heartRate (vitals r.1) - heartRate (vitals sim) ≤ 2).
Proof.
  intros Ha Hd r. subst r. unfold onInterval. rewrite Ha. cbn [fst snd].
  split.
  - unfold vitalsEffect, syncToFirebase. simpl.
    rewrite (settle_updateDoc_found _ _ _ _ Hd). simpl.
    rewrite lookup_insert_eq. simpl. by apply lookup_union_Some_l.
  - unfold fluctuate. simpl. lia.
Qed.

Lemma fluctuation_in_range_witness :
  let s := sampleStore "SAFE" in
  let sim := mkSim (mkVitals 180 80 82) true in
  let r := onInterval 4 0 sampleId None sim s in
  60 ≤ heartRate (vitals r.1) ≤ 120 ∧ 90 ≤ spo2 (vitals r.1) ≤ 100.
Proof.
  pose proof (fluctuation_in_range 4 0 sampleId None
                (mkSim (mkVitals 180 80 82) true) (sampleStore "SAFE")
                (sampleDevice "SAFE") eq_refl eq_refl) as (_ & H1 & H2 & _).
  exact (conj H1 H2).
Defined.

(** X14: a simulated fall stores status FALL with the heart rate spiked to
    110 (SpO2 and battery as the panel had them), logs nothing, and turns
    auto-fluctuate off: until it is turned on again, the interval and the
    sliders of this panel write nothing, so the panel does not overwrite its
    own FALL. *)
Theorem fall_signal did sim s d :
  devices s !! did = Some d →
  let r := triggerFall did sim s in
  statusOf did r.2 = Some (VStr "FALL")
  ∧ (devices r.2 !! did ≫= (λ d' : Doc, d' !! "vitals"))
    = Some (VVitals (mkVitals 110 (spo2 (vitals sim)) (battery (vitals sim))))
  ∧ events r.2 = events s
  ∧ autoUpdate r.1 = false
  ∧ ∀ cur s' r5 r3 v,
      (simStep (SimInterval r5 r3) did cur r.1 s').2 = s'
      ∧ (simStep (SimSetHeartRate v) did cur r.1 s').2 = s'
      ∧ (simStep (SimSetSpo2 v) did cur r.1 s').2 = s'.
Proof.
  intros Hd r. subst r. unfold triggerFall. cbn [fst snd].
  rewrite (settle_updateDoc_found _ _ _ _ Hd).
  split; [rewrite statusOf_insert; by apply lookup_union_Some_l|].
  split; [simpl; rewrite lookup_insert_eq; simpl; by apply lookup_union_Some_l|].
  done.
Qed.

Lemma fall_signal_witness :
  let s := sampleStore "SAFE" in
  let r := triggerFall sampleId (mkSim (mkVitals 75 98 82) true) s in
  statusOf sampleId r.2 = Some (VStr "FALL")
  ∧ autoUpdate r.1 = false
  ∧ (simStep (SimInterval 4 2) sampleId None r.1 r.2).2 = r.2.
Proof.
  pose proof (fall_signal sampleId (mkSim (mkVitals 75 98 82) true)
                (sampleStore "SAFE") (sampleDevice "SAFE") eq_refl)
    as (H1 & _ & _ & H2 & H3).
  split; [exact H1|]. split; [exact H2|].
  exact (proj1 (H3 None _ 4 2 0)).
Defined.

(** X15: "Reset to SAFE" stores status SAFE with vitals 72 / 99 and the
    panel's battery, and turns auto-fluctuate on.  From then on the panel
    holds the device in SAFE: after any transition a viewer makes in
    between, the next slider move or interval firing of the panel writes
    SAFE again, while the viewer's event stays in the log. *)
Theorem reset_then_sync did cur sim s d a p sev :
  devices s !! did = Some d →
  deviceId p = did →
  (∃ r5 r3, sev = SimInterval r5 r3)
  ∨ (∃ v, sev = SimSetHeartRate v) ∨ (∃ v, sev = SimSetSpo2 v) →
  let r := resetDevice did cur sim s in
  let s1 := settle (handlerOf a p) r.2 in
  let s2 := (simStep sev did cur r.1 s1).2 in
  statusOf did r.2 = Some (VStr "SAFE")
  ∧ (devices r.2 !! did ≫= (λ d' : Doc, d' !! "vitals"))
    = Some (VVitals (mkVitals 72 99 (battery (vitals sim))))
  ∧ autoUpdate r.1 = true
  ∧ statusOf did s1 = Some (VStr (tableTarget a))
  ∧ statusOf did s2 = Some (VStr "SAFE")
  ∧ typesOf (events s2) = typesOf (events s) ++ [Some (VStr (tableEvent a))].
Proof.
  intros Hd Hp Hsev r s1 s2.
  assert (Er : r.2 = mkStore
            (<[did := ({[ "vitals" := VVitals (mkVitals 72 99 (battery (vitals sim)));
                          "status" := VStr "SAFE";
                          "lastUpdate" := VTimestamp (clock s + 1 + 1) ]} : Doc)
                      ∪ (({[ "status" := VStr "SAFE";
                             "lastUpdate" := VTimestamp (clock s + 1) ]} : Doc) ∪ d)]>
               (devices s))
            (events s) (caregivers s) (clock s + 1 + 1) (nextId s)).
  { subst r. unfold resetDevice, vitalsEffect, syncToFirebase. cbn [fst snd autoUpdate].
    rewrite (settle_updateDoc_found did _ s d Hd).
    erewrite settle_updateDoc_found; [|simpl; apply lookup_insert_eq].
    simpl. by rewrite insert_insert_eq. }
  assert (Ha : autoUpdate r.1 = true) by done.
  assert (Hd1 : ∃ d1, devices r.2 !! deviceId p = Some d1).
  { rewrite Er, Hp. simpl. rewrite lookup_insert_eq. by eexists. }
  destruct Hd1 as [d1 Hd1].
  assert (E1 : s1 = afterTransition a p d1 r.2)
    by (subst s1; by apply settle_handler_found).
  assert (Hd2 : devices s1 !! did
                = Some (({[ "status" := VStr (tableTarget a);
                            "lastUpdate" := VTimestamp (clock r.2 + 1) ]} : Doc) ∪ d1))
    by (rewrite E1, <-Hp; apply afterTransition_device).
  assert (E2 : ∀ sim', autoUpdate sim' = true →
            statusOf did (vitalsEffect did cur sim' s1) = Some (VStr "SAFE")
            ∧ events (vitalsEffect did cur sim' s1) = events s1).
  { intros sim' Ha'. unfold vitalsEffect, syncToFirebase. rewrite Ha'.
    rewrite (settle_updateDoc_found _ _ _ _ Hd2).
    split; [rewrite statusOf_insert; by apply lookup_union_Some_l|done]. }
  assert (E3 : statusOf did s2 = Some (VStr "SAFE") ∧ events s2 = events s1).
  { subst s2.
    destruct Hsev as [(r5 & r3 & ->)|[(v & ->)|(v & ->)]];
      simpl; unfold onInterval; rewrite ?Ha; cbn [fst snd]; by apply E2. }
  split; [rewrite Er, statusOf_insert; by apply lookup_union_Some_l|].
  split; [rewrite Er; simpl; rewrite lookup_insert_eq; simpl;
          by apply lookup_union_Some_l|].
  split; [done|].
  split; [rewrite E1, <-Hp; apply afterTransition_status|].
  split; [apply E3|].
  destruct E3 as [_ ->]. rewrite E1, afterTransition_events, Er.
  cbn [events]. unfold typesOf. rewrite fmap_app. simpl.
  by rewrite loggedEvent_type.
Qed.

Lemma reset_then_sync_witness :
  let s := sampleStore "FALL" in
  let r := resetDevice sampleId None sampleSim s in
  let s1 := settle (manualSOS (mkProfile Elderly sampleId)) r.2 in
  let s2 := (simStep (SimSetHeartRate 90) sampleId None r.1 s1).2 in
  statusOf sampleId s1 = Some (VStr "SOS")
  ∧ statusOf sampleId s2 = Some (VStr "SAFE")
  ∧ typesOf (events s2) = [Some (VStr "MANUAL_SOS")].
Proof.
  pose proof (reset_then_sync sampleId None sampleSim (sampleStore "FALL")
                (sampleDevice "FALL") ManualSOS (mkProfile Elderly sampleId)
                (SimSetHeartRate 90) eq_refl eq_refl
                ltac:(right; left; by exists 90)) as (_ & _ & _ & H1 & H2 & H3).
  exact (conj H1 (conj H2 H3)).
Defined.

(** ** The care team *)

Lemma rosterRun_cons did op ops s :
  rosterRun did (op :: ops) s = rosterRun did ops (rosterStep did s op).
Proof. reflexivity. Qed.

(** X16: any number of caregivers added one after the other (with name and
    phone filled in, and nothing removed) get the next free numbers as
    priorities: from priorities 1 .. n the roster goes to 1 .. n + k, so the
    priorities of the displayed list are pairwise distinct. *)
Theorem adds_alone_keep_priorities_unique did ops s n :
  Forall (λ op, ∃ name phone, op = AddCaregiver name phone
                               ∧ name ≠ EmptyString ∧ phone ≠ EmptyString) ops →
  priority <$> deviceCaregivers did s ≡ₚ firstPriorities n →
  let s' := rosterRun did ops s in
  priority <$> deviceCaregivers did s' ≡ₚ firstPriorities (n + length ops)
  ∧ NoDup (priority <$> myCaregivers did (caregivers s')).
Proof.
  intros Hops Hn s'.
  assert (H : priority <$> deviceCaregivers did s'
              ≡ₚ firstPriorities (n + length ops)).
  { subst s'. revert s n Hn.
    induction Hops as [|op ops (name & phone & -> & H1 & H2) _ IH];
      intros s n Hn.
    - simpl. by rewrite Nat.add_0_r.
    - rewrite rosterRun_cons. simpl length.
      replace (n + S (length ops))%nat with (S n + length ops)%nat by lia.
      apply IH. simpl. by apply handleAdd_keeps_dense. }
  split; [done|].
  rewrite (myCaregivers_perm did (caregivers s')).
  fold (deviceCaregivers did s'). rewrite H. apply firstPriorities_NoDup.
Qed.

Lemma adds_alone_keep_priorities_unique_witness :
  let ops := [AddCaregiver "Asha" "111"; AddCaregiver "Ben" "222";
              AddCaregiver "Chen" "333"] in
  let s' := rosterRun sampleId ops (sampleStore "SAFE") in
  priority <$> deviceCaregivers sampleId s' ≡ₚ firstPriorities 3
  ∧ NoDup (priority <$> myCaregivers sampleId (caregivers s')).
Proof.
  apply (adds_alone_keep_priorities_unique sampleId
           [AddCaregiver "Asha" "111"; AddCaregiver "Ben" "222";
            AddCaregiver "Chen" "333"] (sampleStore "SAFE") 0).
  - repeat constructor; do 2 eexists; (split; [reflexivity|]); split; discriminate.
  - reflexivity.
Defined.

(** X17: an add attempt with the name or the phone left empty stores
    nothing; a stored caregiver belongs to the adding wearer's device only:
    the roster of every other device, the device documents and the event log
    are as before, whatever list the screen was holding. *)
Theorem add_caregiver_frame did did' cgs name phone s :
  did' ≠ did →
  let s' := handleAdd did cgs name phone s in
  deviceCaregivers did' s' = deviceCaregivers did' s
  ∧ devices s' = devices s
  ∧ events s' = events s
  ∧ (name = EmptyString ∨ phone = EmptyString → s' = s).
Proof.
  intros Hne s'. subst s'.
  split; [|split; [apply handleAdd_devices|split; [apply handleAdd_events|]]].
  - unfold handleAdd. destruct (_ || _); [done|].
    unfold deviceCaregivers, addCaregiver, docsOf. simpl.
    rewrite fmap_app, filter_app. simpl.
    rewrite filter_cons_False; [by rewrite filter_nil, app_nil_r|].
    unfold ofDevice. simpl. intros H%bool_decide_unpack.
    apply Hne. vm_compute in H. by injection H.
  - intros [->| ->]; unfold handleAdd; simpl; [done|].
    by rewrite orb_true_r.
Qed.

Lemma add_caregiver_frame_witness :
  let s := rosterRun "ESP32-OTHER" [AddCaregiver "Dee" "444"] (sampleStore "SAFE") in
  let s' := handleAdd sampleId [] "Asha" "111" s in
  length (deviceCaregivers "ESP32-OTHER" s) = 1%nat
  ∧ deviceCaregivers "ESP32-OTHER" s' = deviceCaregivers "ESP32-OTHER" s.
Proof.
  split; [reflexivity|].
  apply (add_caregiver_frame sampleId "ESP32-OTHER" [] "Asha" "111").
  discriminate.
Defined.

(** ** The dashboard *)

(** X18: the "Primary Caregiver" card, shown to the wearer only, names a
    caregiver of the paired device whose priority is the least of that
    device's caregivers (all documents having a numeric priority). *)
Theorem primary_caregiver_least did snapshot p :
  Forall (λ c, is_Some (priority c))
         (filter (λ e, ofDevice did e) (docsOf snapshot)) →
  primaryCaregiver Elderly (myCaregivers did snapshot) = Some p →
  p ∈ docsOf snapshot
  ∧ p !! "deviceId" = Some (VStr did)
  ∧ (∀ c, c ∈ docsOf snapshot → c !! "deviceId" = Some (VStr did) →
          default 0 (priority p) ≤ default 0 (priority c))
  ∧ primaryCaregiver Caregiver (myCaregivers did snapshot) = None.
Proof.
  intros Hall Hp. unfold primaryCaregiver in *. simpl in *.
  pose proof (myCaregivers_sorted did snapshot Hall) as Hs.
  pose proof (myCaregivers_perm did snapshot) as Hperm.
  destruct (myCaregivers did snapshot) as [|h t] eqn:E; [done|].
  simpl in Hp. injection Hp as ->.
  assert (Hin : ∀ c, c ∈ p :: t
                     ↔ c ∈ docsOf snapshot ∧ c !! "deviceId" = Some (VStr did)).
  { intros c. rewrite Hperm, list_elem_of_filter. unfold ofDevice.
    rewrite Is_true_true, bool_decide_eq_true. tauto. }
  destruct (proj1 (Hin p) ltac:(left)) as [Hp1 Hp2].
  split; [done|]. split; [done|]. split; [|done].
  intros c Hc1 Hc2.
  apply StronglySorted_inv in Hs as [_ Hs]. rewrite Forall_forall in Hs.
  pose proof (proj2 (Hin c) (conj Hc1 Hc2)) as Hc.
  apply elem_of_cons in Hc as [->|Hc]; [lia|by apply Hs].
Qed.

Lemma primary_caregiver_least_witness :
  let snapshot : list (string * Doc) :=
    [("a"%string, {[ "deviceId" := VStr sampleId; "name" := VStr "Ben";
                     "priority" := VNum 2 ]});
     ("b"%string, {[ "deviceId" := VStr sampleId; "name" := VStr "Asha";
                     "priority" := VNum 1 ]})] in
  let p : Doc := {[ "id" := VStr "b"; "deviceId" := VStr sampleId;
                    "name" := VStr "Asha"; "priority" := VNum 1 ]} in
  primaryCaregiver Elderly (myCaregivers sampleId snapshot) = Some p
  ∧ ∀ c, c ∈ docsOf snapshot → c !! "deviceId" = Some (VStr sampleId) →
         default 0 (priority p) ≤ default 0 (priority c).
Proof.
  intros snapshot p.
  assert (Hall : Forall (λ c, is_Some (priority c))
                   (filter (λ e, ofDevice sampleId e) (docsOf snapshot)))
    by compute_done.
  assert (Hp : primaryCaregiver Elderly (myCaregivers sampleId snapshot) = Some p)
    by (vm_compute; reflexivity).
  split; [exact Hp|].
  exact (proj1 (proj2 (proj2
           (primary_caregiver_least sampleId snapshot p Hall Hp)))).
Defined.

(** ** The activity log *)

Lemma millis_withId id (e : Doc) : millis (withId id e) = millis e.
Proof.
  unfold millis, withId. destruct (e !! "timestamp") as [v|] eqn:E.
  - by rewrite (lookup_union_Some_l _ _ _ _ E).
  - rewrite lookup_union_r by done. done.
Qed.

Lemma ofDevice_withId did id (e : Doc) :
  e !! "deviceId" = Some (VStr did) → ofDevice did (withId id e) = true.
Proof.
  intros H. unfold ofDevice, withId. apply bool_decide_eq_true.
  by apply lookup_union_Some_l.
Qed.

(** X19: the event a viewer has just logged is the first row of that
    viewer's reconstructed history, provided no stored event is stamped
    later than the store's clock. *)
Theorem newest_event_tops_history ev c s :
  (∀ e, e ∈ events s → millis e.2 ≤ clock s) →
  (clientStep ev c s).2 ≠ s →
  ∃ id e, events (clientStep ev c s).2 = events s ++ [(id, e)]
          ∧ e !! "type" = Some (VStr (tableEvent (actionOf ev)))
          ∧ head (myEvents (deviceId (profile c)) (events (clientStep ev c s).2))
            = Some (withId id e).
Proof.
  intros Hold Hch.
  destruct (clientStep_transition ev c s) as [H|(d & _ & Hd & H)]; [done|].
  rewrite H. clear Hch H.
  set (e := loggedEvent (actionOf ev) (profile c) (clock s + 2)).
  set (id := autoId (nextId s)).
  exists id, e. split; [done|]. split; [apply loggedEvent_type|].
  rewrite afterTransition_events. fold e id.
  set (did := deviceId (profile c)).
  pose proof (sortBy_perm (λ a b : Doc, millis b - millis a)
                (filter (λ x, ofDevice did x) (docsOf (events s ++ [(id, e)]))))
    as Hperm.
  assert (Hsorted : StronglySorted (λ a b : Doc, millis b ≤ millis a)
                      (myEvents did (events s ++ [(id, e)]))).
  { apply sortBy_sorted.
    - intros x y z ??. lia.
    - intros x y _ _. lia. }
  fold (myEvents did (events s ++ [(id, e)])) in Hperm.
  assert (Hnew : withId id e ∈ myEvents did (events s ++ [(id, e)])).
  { rewrite Hperm, list_elem_of_filter. split.
    - apply Is_true_true, ofDevice_withId, loggedEvent_deviceId.
    - unfold docsOf. rewrite fmap_app. apply elem_of_app. right. simpl. left. }
  assert (Hm : millis (withId id e) = clock s + 2).
  { rewrite millis_withId. unfold millis, e.
    by rewrite loggedEvent_timestamp. }
  destruct (myEvents did (events s ++ [(id, e)])) as [|h t] eqn:E.
  { by apply elem_of_nil in Hnew. }
  simpl. f_equal.
  apply elem_of_cons in Hnew as [->|Hnew]; [done|].
  apply StronglySorted_inv in Hsorted as [_ Hs]. rewrite Forall_forall in Hs.
  specialize (Hs _ Hnew). simpl in Hs. rewrite Hm in Hs.
  assert (Hh : h ∈ h :: t) by left.
  rewrite Hperm, list_elem_of_filter in Hh. destruct Hh as [_ Hh].
  unfold docsOf in Hh. rewrite fmap_app in Hh.
  apply elem_of_app in Hh as [Hh|Hh].
  - apply list_elem_of_fmap in Hh as (x & -> & Hx).
    specialize (Hold x Hx). rewrite millis_withId in Hs. lia.
  - simpl in Hh. apply list_elem_of_singleton in Hh. done.
Qed.

Lemma newest_event_tops_history_witness :
  let s0 := sampleStore "SAFE" in
  let s := click BtnSOS (viewer Elderly s0) s0 in
  let c := viewer Caregiver s in
  ∃ id e, events (clientStep (Click BtnAmbulance) c s).2 = events s ++ [(id, e)]
          ∧ e !! "type" = Some (VStr "AMBULANCE_REQUESTED")
          ∧ head (myEvents sampleId (events (clientStep (Click BtnAmbulance) c s).2))
            = Some (withId id e).
Proof.
  apply (newest_event_tops_history (Click BtnAmbulance)).
  - intros e He.
    assert (E : events (click BtnSOS (viewer Elderly (sampleStore "SAFE"))
                          (sampleStore "SAFE"))
                = [(autoId 0, loggedEvent ManualSOS (mkProfile Elderly sampleId) 2)])
      by (vm_compute; reflexivity).
    rewrite E in He. apply list_elem_of_singleton in He. subst e.
    vm_compute. discriminate.
  - intros H. apply (f_equal clock) in H. vm_compute in H. discriminate.
Defined.

(** X20: how the activity log colours the events the program writes: manual
    SOS, fall escalation and ambulance request get the red dot of an open
    emergency, a false alarm the grey dot of a resolved one, and an
    emergency resolution the blue dot of a plain entry (its type names no
    emergency and its document has no status field).  As events are never
    rewritten, a row keeps its dot. *)
Theorem logged_event_dot ev c s :
  (clientStep ev c s).2 ≠ s →
  ∃ id e, events (clientStep ev c s).2 = events s ++ [(id, e)]
          ∧ dotOf (withId id e)
            = Some (match actionOf ev with
                    | ManualSOS | Escalate | RequestAmbulance => RedDot
                    | CancelFall => GreyDot
                    | ResolveEmergency => BlueDot
                    end).
Proof.
  intros Hch.
  destruct (clientStep_transition ev c s) as [H|(d & _ & Hd & H)]; [done|].
  rewrite H. eexists _, _. split; [apply afterTransition_events|].
  by destruct (actionOf ev).
Qed.

Lemma logged_event_dot_witness :
  let s := sampleStore "SOS" in
  let c := viewer Elderly s in
  ∃ id e, events (clientStep (Click BtnResolve) c s).2 = events s ++ [(id, e)]
          ∧ dotOf (withId id e) = Some BlueDot.
Proof.
  apply (logged_event_dot (Click BtnResolve)).
  intros H. apply (f_equal clock) in H. vm_compute in H. discriminate.
Defined.

(** ** Registration and pairing *)

Lemma updateUser_core uid fields b b' :
  updateUser uid fields b = Some b' →
  devices (core b') = devices (core b)
  ∧ events (core b') = events (core b)
  ∧ caregivers (core b') = caregivers (core b).
Proof.
  unfold updateUser. destruct (users b !! uid); [|done].
  by intros [= <-].
Qed.

(** The store part of a pairing attempt does not depend on whether the
    final profile update succeeds. *)
Lemma handlePairDevice_core uid r did b :
  ∃ s1,
    (match devices (core b) !! did with
     | None =>
         Some (setDevice did
                 {[ "status" := VStr "SAFE";
                    "vitals" := VVitals (mkVitals 75 98 100);
                    "lastUpdate" := VServerTimestamp;
                    "pairedElderly" :=
                      if bool_decide (r = Elderly) then VStr uid else VNull ]}
                 (core b))
     | Some _ =>
         if bool_decide (r = Elderly)
         then updateDoc did {[ "pairedElderly" := VStr uid ]} (core b)
         else Some (core b)
     end) = Some s1
    ∧ devices (core (handlePairDevice uid r did b).1) = devices s1
    ∧ events (core (handlePairDevice uid r did b).1) = events s1
    ∧ caregivers (core (handlePairDevice uid r did b).1) = caregivers s1
    ∧ (handlePairDevice uid r did b).2 = bool_decide (users b !! uid = None)
    ∧ (users b !! uid = None → users (handlePairDevice uid r did b).1 = users b).
Proof.
  unfold handlePairDevice.
  set (paired := match devices (core b) !! did with
                 | None => _ | Some _ => _ end).
  assert (Hp : ∃ s1, paired = Some s1).
  { subst paired. destruct (devices (core b) !! did) as [d|] eqn:E; [|by eexists].
    case_bool_decide; [|by eexists].
    rewrite (updateDoc_found _ _ _ _ E). by eexists. }
  destruct Hp as [s1 ->]. exists s1. split; [done|].
  unfold updateUser. simpl.
  destruct (users b !! uid) as [old|] eqn:E; simpl; [|done].
  repeat split; try done.
Qed.

Lemma pair_existing_fields uid r did b d (k : string) :
  devices (core b) !! did = Some d →
  k ≠ "pairedElderly"%string →
  let b' := (handlePairDevice uid r did b).1 in
  (devices (core b') !! did ≫= (λ d' : Doc, d' !! k)) = d !! k
  ∧ (r = Caregiver → devices (core b') = devices (core b))
  ∧ events (core b') = events (core b)
  ∧ caregivers (core b') = caregivers (core b).
Proof.
  intros Hd Hk b'. subst b'.
  destruct (handlePairDevice_core uid r did b) as (s1 & Hs1 & -> & -> & -> & _).
  rewrite Hd in Hs1. destruct r; simpl in Hs1.
  - rewrite (updateDoc_found _ _ _ _ Hd) in Hs1. injection Hs1 as <-. simpl.
    rewrite lookup_insert_eq. simpl. split; [|done].
    rewrite lookup_union_r; [done|].
    unfold resolve. rewrite lookup_fmap, lookup_singleton_ne; done.
  - injection Hs1 as <-. by rewrite Hd.
Qed.

(** X21: pairing with a device that already exists never resets it.  Its
    status, vitals and every field other than pairedElderly are as before
    (an emergency in progress survives a new pairing), a caregiver's pairing
    leaves the device documents untouched altogether, and no event or
    caregiver entry is written. *)
Theorem pairing_keeps_existing_device uid r did b d (k : string) :
  devices (core b) !! did = Some d →
  k ≠ "pairedElderly"%string →
  let b' := (handlePairDevice uid r did b).1 in
  (devices (core b') !! did ≫= (λ d' : Doc, d' !! k)) = d !! k
  ∧ (r = Caregiver → devices (core b') = devices (core b))
  ∧ events (core b') = events (core b)
  ∧ caregivers (core b') = caregivers (core b).
Proof. apply pair_existing_fields. Qed.

Lemma pairing_keeps_existing_device_witness :
  let b := mkBackend ∅ (sampleStore "SOS") in
  let b' := (handlePairDevice "u1" Elderly sampleId b).1 in
  (devices (core b') !! sampleId ≫= (λ d' : Doc, d' !! "status"))
  = Some (VStr "SOS").
Proof.
  exact (proj1 (pairing_keeps_existing_device "u1" Elderly sampleId
                  (mkBackend ∅ (sampleStore "SOS")) (sampleDevice "SOS")
                  "status" eq_refl ltac:(discriminate))).
Defined.

(** X22: pairing with an id that has no device document creates it in
    status SAFE with vitals 75 / 98 / 100, stamped by the server, and
    records the wearer (null for a caregiver); a viewer that subscribes to
    it shows no alert overlay.  The document is created even when the
    profile update that follows fails. *)
Theorem pairing_creates_safe_device uid r did b c :
  devices (core b) !! did = None →
  deviceId (profile c) = did →
  let b' := (handlePairDevice uid r did b).1 in
  devices (core b') !! did
    = Some ({[ "status" := VStr "SAFE";
               "vitals" := VVitals (mkVitals 75 98 100);
               "lastUpdate" := VTimestamp (clock (core b) + 1);
               "pairedElderly" :=
                 if bool_decide (r = Elderly) then VStr uid else VNull ]} : Doc)
  ∧ showOverlay (pushDevice (core b') c) = false
  ∧ events (core b') = events (core b).
Proof.
  intros Hd Hc b'. subst b'.
  destruct (handlePairDevice_core uid r did b) as (s1 & Hs1 & E1 & -> & _).
  rewrite Hd in Hs1. injection Hs1 as <-.
  assert (E : devices (core (handlePairDevice uid r did b).1) !! did
              = Some ({[ "status" := VStr "SAFE";
                         "vitals" := VVitals (mkVitals 75 98 100);
                         "lastUpdate" := VTimestamp (clock (core b) + 1);
                         "pairedElderly" :=
                           if bool_decide (r = Elderly) then VStr uid else VNull ]}
                      : Doc)).
  { rewrite E1. simpl. rewrite lookup_insert_eq. f_equal.
    by destruct r. }
  split; [done|]. split; [|done].
  unfold showOverlay.
  rewrite !(observes_pushDevice _ _ c _ ltac:(rewrite Hc; exact E)).
  by destruct r.
Qed.

Lemma pairing_creates_safe_device_witness :
  let b := mkBackend ∅ (mkStore ∅ [] [] 0 0) in
  let c := mkClient (mkProfile Caregiver sampleId) None Dashboard None in
  let b' := (handlePairDevice "u2" Caregiver sampleId b).1 in
  (handlePairDevice "u2" Caregiver sampleId b).2 = true
  ∧ statusOf sampleId (core b') = Some (VStr "SAFE")
  ∧ showOverlay (pushDevice (core b') c) = false.
Proof.
  pose proof (pairing_creates_safe_device "u2" Caregiver sampleId
                (mkBackend ∅ (mkStore ∅ [] [] 0 0))
                (mkClient (mkProfile Caregiver sampleId) None Dashboard None)
                eq_refl eq_refl) as (H1 & H2 & _).
  split; [reflexivity|]. split; [|exact H2].
  unfold statusOf. rewrite H1. reflexivity.
Defined.

Lemma register_pair_flow uid name r did b :
  did ≠ EmptyString →
  let b1 := handleRegisterProfile uid name r b in
  let p := handlePairDevice uid r did b1 in
  screenOf (users b1 !! uid) = PairingShown
  ∧ p.2 = false
  ∧ screenOf (users p.1 !! uid) = MainShown
  ∧ is_Some (subscribedDevice uid p.1)
  ∧ subscribedDevice uid p.1 = withId did <$> devices (core p.1) !! did.
Proof.
  intros Hne b1 p.
  assert (U1 : users b1 !! uid
               = Some ({[ "uid" := VStr uid; "name" := VStr name;
                          "role" := VStr (roleName r);
                          "createdAt" := VTimestamp (clock (core b) + 1);
                          "deviceId" := VNull ]} : Doc)).
  { subst b1. unfold handleRegisterProfile, setUser. simpl.
    by rewrite lookup_insert_eq. }
  split; [by rewrite U1|].
  destruct (handlePairDevice_core uid r did b1) as (s1 & Hs1 & D & _ & _ & F & _).
  fold p in D, F.
  split; [rewrite F, U1; by apply bool_decide_eq_false_2|].
  assert (U2 : ∃ p', users p.1 !! uid = Some p'
                     ∧ p' !! "deviceId" = Some (VStr did)).
  { subst p. unfold handlePairDevice. rewrite Hs1.
    unfold updateUser. cbn [users core]. rewrite U1. cbn [fst users].
    rewrite lookup_insert_eq.
    eexists. split; [done|]. by apply lookup_union_Some_l. }
  destruct U2 as (p' & U2 & U3).
  assert (Hdev : is_Some (devices (core p.1) !! did)).
  { rewrite D. destruct (devices (core b1) !! did) as [d|] eqn:E.
    - destruct (bool_decide (r = Elderly)).
      + rewrite (updateDoc_found _ _ _ _ E) in Hs1. injection Hs1 as <-.
        simpl. rewrite lookup_insert_eq. by eexists.
      + injection Hs1 as <-. eexists. exact E.
    - injection Hs1 as <-. simpl. rewrite lookup_insert_eq. by eexists. }
  assert (S : subscribedDevice uid p.1 = withId did <$> devices (core p.1) !! did).
  { unfold subscribedDevice. rewrite U2. simpl. rewrite U3.
    by rewrite bool_decide_eq_false_2. }
  split.
  { unfold screenOf. rewrite U2, U3. simpl.
    by rewrite bool_decide_eq_false_2. }
  split; [|done].
  rewrite S. destruct Hdev as [d ->]. by eexists.
Qed.

(** X23: registration always leads to the pairing screen (a profile that
    was paired before loses its device id), and a pairing that follows,
    with a non-empty id, leads to the main screen with the device of that id
    subscribed. *)
Theorem register_then_pair uid name r did b :
  did ≠ EmptyString →
  let b1 := handleRegisterProfile uid name r b in
  let p := handlePairDevice uid r did b1 in
  screenOf (users b1 !! uid) = PairingShown
  ∧ p.2 = false
  ∧ screenOf (users p.1 !! uid) = MainShown
  ∧ is_Some (subscribedDevice uid p.1)
  ∧ subscribedDevice uid p.1 = withId did <$> devices (core p.1) !! did.
Proof. apply register_pair_flow. Qed.

Lemma register_then_pair_witness :
  let b := mkBackend ∅ (sampleStore "FALL") in
  let b1 := handleRegisterProfile "u1" "Asha" Elderly b in
  let p := handlePairDevice "u1" Elderly sampleId b1 in
  screenOf (users b !! "u1") = OnboardingShown
  ∧ screenOf (users b1 !! "u1") = PairingShown
  ∧ screenOf (users p.1 !! "u1") = MainShown.
Proof.
  pose proof (register_then_pair "u1" "Asha" Elderly sampleId
                (mkBackend ∅ (sampleStore "FALL")) ltac:(discriminate))
    as (H1 & _ & H2 & _).
  split; [reflexivity|]. exact (conj H1 H2).
Defined.

Lemma settle_updateDoc_field did (fields : Doc) s id (k : string) :
  id ≠ did ∨ fields !! k = None →
  (devices (settle (updateDoc did fields) s) !! id ≫= (λ d : Doc, d !! k))
  = (devices s !! id ≫= (λ d : Doc, d !! k)).
Proof.
  intros H. unfold settle, updateDoc.
  destruct (devices s !! did) as [old|] eqn:E; [|done]. simpl.
  destruct (decide (did = id)) as [<-|Hne].
  - destruct H as [H|H]; [done|].
    rewrite lookup_insert_eq, E. simpl.
    rewrite lookup_union_r; [done|].
    unfold resolve. by rewrite lookup_fmap, H.
  - by rewrite lookup_insert_ne.
Qed.

(** X25: an event of a simulator panel touches nothing but the vitals,
    status and lastUpdate fields of the panel's own device: every other
    field (pairedElderly), every other device, the event log and the
    caregiver entries are as before. *)
Theorem panel_step_frame sev did cur sim s id (k : string) :
  id ≠ did
  ∨ (k ≠ "vitals"%string ∧ k ≠ "status"%string ∧ k ≠ "lastUpdate"%string) →
  (devices (simStep sev did cur sim s).2 !! id ≫= (λ d : Doc, d !! k))
  = (devices s !! id ≫= (λ d : Doc, d !! k))
  ∧ events (simStep sev did cur sim s).2 = events s
  ∧ caregivers (simStep sev did cur sim s).2 = caregivers s.
Proof.
  intros H. split; [|split; [apply simStep_events|]].
  - assert (F : ∀ fields : Doc,
              (∀ k', fields !! k' ≠ None →
                     k' = "vitals"%string ∨ k' = "status"%string
                     ∨ k' = "lastUpdate"%string) →
              id ≠ did ∨ fields !! k = None).
    { intros fields Hf. destruct H as [H|(H1 & H2 & H3)]; [by left|right].
      destruct (fields !! k) eqn:E; [|done].
      destruct (Hf k ltac:(by rewrite E)) as [?|[?|?]]; done. }
    assert (K : ∀ (v1 v2 v3 : Value) k',
              ({[ "vitals" := v1; "status" := v2; "lastUpdate" := v3 ]} : Doc) !! k'
              ≠ None →
              k' = "vitals"%string ∨ k' = "status"%string
              ∨ k' = "lastUpdate"%string).
    { intros v1 v2 v3 k' Hk.
      destruct (decide (k' = "vitals"%string)); [by left|].
      destruct (decide (k' = "status"%string)); [by right; left|].
      destruct (decide (k' = "lastUpdate"%string)); [by right; right|].
      exfalso. apply Hk.
      rewrite !lookup_insert_ne by done. by rewrite lookup_singleton_ne. }
    assert (K2 : ∀ (v2 v3 : Value) k',
              ({[ "status" := v2; "lastUpdate" := v3 ]} : Doc) !! k' ≠ None →
              k' = "vitals"%string ∨ k' = "status"%string
              ∨ k' = "lastUpdate"%string).
    { intros v2 v3 k' Hk.
      destruct (decide (k' = "status"%string)); [by right; left|].
      destruct (decide (k' = "lastUpdate"%string)); [by right; right|].
      exfalso. apply Hk.
      rewrite !lookup_insert_ne by done. by rewrite lookup_singleton_ne. }
    destruct sev; simpl;
      unfold onInterval, triggerFall, triggerSOS, resetDevice, vitalsEffect,
        syncToFirebase; simpl;
      repeat match goal with
             | |- context [if ?b then _ else _] => destruct b; simpl
             end;
      try done;
      repeat (rewrite settle_updateDoc_field;
              [| apply F; first [apply K | apply K2]]);
      done.
  - destruct sev; simpl;
      unfold onInterval, triggerFall, triggerSOS, resetDevice, vitalsEffect,
        syncToFirebase; simpl;
      repeat match goal with
             | |- context [if ?b then _ else _] => destruct b; simpl
             end;
      rewrite ?settle_updateDoc_caregivers; done.
Qed.

Lemma panel_step_frame_witness :
  let s := sampleStore "SOS" in
  (sampleId ≠ sampleId
   ∨ ("pairedElderly"%string ≠ "vitals"%string
      ∧ "pairedElderly"%string ≠ "status"%string
      ∧ "pairedElderly"%string ≠ "lastUpdate"%string))
  ∧ (devices (simStep SimReset sampleId None sampleSim s).2 !! sampleId
       ≫= (λ d : Doc, d !! "pairedElderly"))
    = Some VNull.
Proof.
  assert (H : sampleId ≠ sampleId
              ∨ ("pairedElderly"%string ≠ "vitals"%string
                 ∧ "pairedElderly"%string ≠ "status"%string
                 ∧ "pairedElderly"%string ≠ "lastUpdate"%string))
    by (right; repeat split; discriminate).
  split; [exact H|].
  exact (proj1 (panel_step_frame SimReset sampleId None sampleSim
                  (sampleStore "SOS") sampleId "pairedElderly" H)).
Defined.

(** X26: what a viewer does on its own device never shows in the history of
    another device: the list reconstructed for a different paired id is the
    same before and after the viewer's event. *)
Theorem history_unaffected_by_other_devices ev c s did :
  deviceId (profile c) ≠ did →
  myEvents did (events (clientStep ev c s).2) = myEvents did (events s).
Proof.
  intros Hne.
  destruct (clientStep_transition ev c s) as [->|(d & _ & _ & ->)]; [done|].
  rewrite afterTransition_events. unfold myEvents, docsOf.
  rewrite fmap_app, filter_app. simpl.
  rewrite filter_cons_False; [by rewrite filter_nil, app_nil_r|].
  unfold ofDevice, withId. intros H%bool_decide_unpack.
  rewrite (lookup_union_Some_l _ _ _ _ (loggedEvent_deviceId _ _ _)) in H.
  by injection H.
Qed.

Lemma history_unaffected_by_other_devices_witness :
  let s := sampleStore "SOS" in
  let c := viewer Caregiver s in
  events (clientStep (Click BtnAmbulance) c s).2 ≠ events s
  ∧ myEvents "ESP32-OTHER" (events (clientStep (Click BtnAmbulance) c s).2)
    = myEvents "ESP32-OTHER" (events s).
Proof.
  split; [intros H; apply (f_equal length) in H; vm_compute in H; discriminate|].
  apply history_unaffected_by_other_devices. discriminate.
Defined.
